(** * MCP Terminal Bridge: a shallow embedding of [mcp-bridge/server.py]

    The server keeps one module-level dictionary [terminals], talks to a
    container engine ([docker_client]) and to a key-value mirror
    ([redis_client]), and exposes its operations as HTTP routes.  Every
    route body runs without suspension between its first and its last
    statement, so a route is modelled as one atomic transition of the
    server state.  What the outside world answers during a transition
    (the identifier drawn by [uuid.uuid4], the clock readings, the
    outcome of every engine and mirror call) is an explicit argument of
    the transition. *)

From stdpp Require Import base option list strings gmap pretty.
From Stdlib Require Import ZArith.
From Stdlib.Strings Require Import Ascii Byte.

Local Open Scope string_scope.
Local Open Scope Z_scope.

(** ** Python dictionaries

    A [dict] with string keys keeps its keys in insertion order; assigning
    to a key that is present replaces the value in place. *)
Module PyDict.

Definition t (V : Type) : Type := list (string * V).

Definition empty {V} : t V := [].

(** [d.get(k)] *)
Fixpoint get {V} (k : string) (d : t V) : option V :=
  match d with
  | [] => None
  | (k', v) :: d' => if decide (k' = k) then Some v else get k d'
  end.

(** [k in d] *)
Definition contains {V} (k : string) (d : t V) : bool :=
  match get k d with Some _ => true | None => false end.

(** [d[k] = v] *)
Fixpoint setitem {V} (k : string) (v : V) (d : t V) : t V :=
  match d with
  | [] => [(k, v)]
  | (k', v') :: d' =>
      if decide (k' = k) then (k, v) :: d' else (k', v') :: setitem k v d'
  end.

(** [d.values()] *)
Definition values {V} (d : t V) : list V := d.*2.

(** [d.keys()] *)
Definition keys {V} (d : t V) : list string := d.*1.

(** [d.update(other)] *)
Definition update {V} (d other : t V) : t V :=
  foldl (λ acc kv, setitem kv.1 kv.2 acc) d other.

(** [bool(d)]: a dictionary is truthy when it has an entry. *)
Definition truthy {V} (d : t V) : bool :=
  match d with [] => false | _ :: _ => true end.

End PyDict.

Abbreviation dict := PyDict.t.

(** ** Exceptions and results *)

(** What a route can raise: FastAPI's [HTTPException], or any other
    exception, which leaves the route unhandled. *)
Inductive exn : Type :=
| HTTPException (status_code : Z) (detail : string)
| OtherException (msg : string).

Inductive result (A : Type) : Type :=
| Return (a : A)
| Raise (e : exn).
Arguments Return {A} a.
Arguments Raise {A} e.

(** Outcome of a call to a collaborator (engine, mirror, file system):
    it answers, or it raises an exception whose [str()] is [msg]. *)
Inductive ext (A : Type) : Type :=
| Done (a : A)
| Fails (msg : string).
Arguments Done {A} a.
Arguments Fails {A} msg.

(** ** Time

    A [datetime] is its number of microseconds since the epoch;
    [isoformat()] and [fromisoformat] are inverse renderings of it and are
    not modelled apart. *)
Definition datetime : Type := Z.

Definition timedelta_hours (hours : Z) : Z := hours * 3600 * 1000000.

(** ** Configuration: [class Config] *)
Record Config : Type := {
  JWT_SECRET : string;
  JWT_ALGORITHM : string;
  JWT_EXPIRE_HOURS : Z;
  TERMINAL_IMAGE : string;
  LOG_BASE_DIR : string;
  MAX_TERMINALS_PER_AGENT : nat;
  TERMINAL_TIMEOUT_HOURS : Z
}.

(** The values of the class when the process environment sets nothing. *)
Definition default_config : Config := {|
  JWT_SECRET := "mcp-terminal-bridge-secret";
  JWT_ALGORITHM := "HS256";
  JWT_EXPIRE_HOURS := 24;
  TERMINAL_IMAGE := "minimal-agent-terminal:latest";
  LOG_BASE_DIR := "/tmp/agent-logs";
  MAX_TERMINALS_PER_AGENT := 5;
  TERMINAL_TIMEOUT_HOURS := 4
|}.

(** ** Data model *)

(** The two values the ["status"] entry of a terminal ever holds. *)
Inductive status : Type := running | destroyed.

Global Instance status_eq_dec : EqDecision status.
Proof. solve_decision. Defined.

Definition status_str (st : status) : string :=
  match st with running => "running" | destroyed => "destroyed" end.

(** The dictionary built as [terminal_info] in [create_agent_terminal]. *)
Record terminal_info : Type := {
  ti_terminal_id : string;
  ti_agent_id : string;
  ti_container_id : string;
  ti_status : status;
  ti_created_at : datetime;
  ti_log_dir : string;
  ti_command : string;
  ti_expires_at : datetime
}.

(** [terminals[terminal_id]["status"] = st] on the stored dictionary. *)
Definition with_status (st : status) (t : terminal_info) : terminal_info :=
  {| ti_terminal_id := ti_terminal_id t;
     ti_agent_id := ti_agent_id t;
     ti_container_id := ti_container_id t;
     ti_status := st;
     ti_created_at := ti_created_at t;
     ti_log_dir := ti_log_dir t;
     ti_command := ti_command t;
     ti_expires_at := ti_expires_at t |}.

(** [class TerminalCreateRequest] *)
Record TerminalCreateRequest : Type := {
  req_agent_id : string;
  req_command : option string;
  req_environment : option (dict string);
  req_timeout_hours : option Z
}.

(** [class TerminalExecuteRequest] *)
Record TerminalExecuteRequest : Type := {
  req_exec_command : string;
  req_timeout : option Z
}.

(** [class TerminalResponse] *)
Record TerminalResponse : Type := {
  resp_terminal_id : string;
  resp_agent_id : string;
  resp_status : string;
  resp_created_at : datetime;
  resp_container_id : string;
  resp_log_path : string
}.

(** [class ExecuteResponse]; [execution_time] is kept in microseconds. *)
Record ExecuteResponse : Type := {
  output : string;
  error : string;
  exit_code : Z;
  execution_time : Z
}.

(** The [log_entry] dictionary pushed to the mirror after a command. *)
Record log_entry : Type := {
  le_timestamp : datetime;
  le_terminal_id : string;
  le_agent_id : string;
  le_command : string;
  le_exit_code : Z;
  le_execution_time : Z
}.

(** ** Collaborators *)

(** Calls issued to the container engine, in the order they are made. *)
Inductive docker_call : Type :=
| containers_run (image command : string) (environment : dict string)
    (volume_host : string) (name : string)
| containers_get (container_id : string)
| container_exec_run (container_id command : string)
    (stdout stderr stream : bool) (timeout : Z)
| container_logs (container_id : string) (tail : Z) (timestamps : bool)
| container_logs_stream (container_id : string)
| container_stop (container_id : string) (timeout : Z)
| container_remove (container_id : string).

(** What a key of the mirror holds: the JSON text of a terminal written by
    [setex], or the list of JSON command entries grown by [lpush]. *)
Inductive redis_value : Type :=
| RString (ttl : Z) (value : terminal_info)
| RList (ttl : option Z) (entries : list log_entry).

(** ** Server state: the module-level globals and what was sent out. *)
Record state : Type := {
  terminals : dict terminal_info;
  redis : gmap string redis_value;
  docker_calls : list docker_call
}.

Definition initial_state : state :=
  {| terminals := PyDict.empty; redis := ∅; docker_calls := [] |}.

Definition set_terminals (f : dict terminal_info → dict terminal_info)
    (s : state) : state :=
  {| terminals := f (terminals s); redis := redis s;
     docker_calls := docker_calls s |}.

Definition set_redis (f : gmap string redis_value → gmap string redis_value)
    (s : state) : state :=
  {| terminals := terminals s; redis := f (redis s);
     docker_calls := docker_calls s |}.

Definition call_docker (c : docker_call) (s : state) : state :=
  {| terminals := terminals s; redis := redis s;
     docker_calls := docker_calls s ++ [c] |}.

(** ** Strings and bytes *)

(** The character ["] and the two characters [\"] of the start command. *)
Definition dq : string := String "034"%char "".
Definition bdq : string := String "092"%char dq.

Definition startswith_sep (p : string) : bool :=
  match p with String "/"%char _ => true | _ => false end.

Fixpoint endswith_sep (p : string) : bool :=
  match p with
  | "" => false
  | String c "" => bool_decide (c = "/"%char)
  | String _ p' => endswith_sep p'
  end.

(** One round of the loop of [posixpath.join]. *)
Definition path_join_step (path b : string) : string :=
  if startswith_sep b then b
  else if bool_decide (path = "") || endswith_sep path then path +:+ b
  else path +:+ "/" +:+ b.

(** [os.path.join(a, *p)] *)
Definition os_path_join (a : string) (p : list string) : string :=
  foldl path_join_step a p.

(** [bytes]; a Python [str] is represented by its UTF-8 encoding. *)
Definition bytes : Type := list Byte.byte.

Definition byte_val (b : Byte.byte) : Z := Z.of_N (Byte.to_N b).

Definition in_range (lo hi b : Z) : bool := (lo <=? b) && (b <=? hi).

Definition is_cont (b : Z) : bool := in_range 128 191 b.

(** Well-formed UTF-8 byte sequences, as the strict decoder accepts them:
    no overlong form, no surrogate, nothing above U+10FFFF. *)
Fixpoint utf8_valid (bs : list Z) : bool :=
  match bs with
  | [] => true
  | b0 :: r0 =>
      if in_range 0 127 b0 then utf8_valid r0
      else
        match r0 with
        | [] => false
        | b1 :: r1 =>
            if in_range 194 223 b0 then is_cont b1 && utf8_valid r1
            else
              match r1 with
              | [] => false
              | b2 :: r2 =>
                  if in_range 224 239 b0 then
                    (if b0 =? 224 then in_range 160 191 b1
                     else if b0 =? 237 then in_range 128 159 b1
                     else is_cont b1)
                    && is_cont b2 && utf8_valid r2
                  else
                    match r2 with
                    | [] => false
                    | b3 :: r3 =>
                        in_range 240 244 b0
                        && (if b0 =? 240 then in_range 144 191 b1
                            else if b0 =? 244 then in_range 128 143 b1
                            else is_cont b1)
                        && is_cont b2 && is_cont b3 && utf8_valid r3
                    end
              end
        end
  end.

(** [b.decode('utf-8')].  The text of the [UnicodeDecodeError] is
    shortened: it does not name the offending byte and its position. *)
Definition decode_utf8 (b : bytes) : ext string :=
  if utf8_valid (byte_val <$> b) then Done (String.string_of_list_byte b)
  else Fails "'utf-8' codec can't decode bytes".

(** ** The body of a [try] block

    Inside a [try] the code threads the server state and stops at the
    first call that raises; what was already written stays written. *)
Definition M (A : Type) : Type := state → ext A * state.

Definition M_ret {A} (a : A) : M A := λ s, (Done a, s).

Definition M_bind {A B} (m : M A) (k : A → M B) : M B :=
  λ s, match m s with
       | (Done a, s') => k a s'
       | (Fails msg, s') => (Fails msg, s')
       end.

Notation "x <- m ;; k" := (M_bind m (λ x, k))
  (at level 100, m at next level, right associativity,
   format "'[v' x  <-  m  ;;  '/' k ']'").
Notation "m ;;; k" := (M_bind m (λ _, k))
  (at level 100, right associativity, format "'[v' m  ;;;  '/' k ']'").

(** A collaborator's answer, with no effect on the server state. *)
Definition answer {A} (o : ext A) : M A := λ s, (o, s).

(** A call to the container engine: it is recorded, then answered. *)
Definition docker {A} (c : docker_call) (o : ext A) : M A :=
  λ s, (o, call_docker c s).

(** A write on the server's own state. *)
Definition modify (f : state → state) : M unit := λ s, (Done tt, f s).

(** [try: body except Exception as e: raise handler(str(e))] *)
Definition try_except {A} (body : M A) (handler : string → exn)
    (s : state) : result A * state :=
  match body s with
  | (Done a, s') => (Return a, s')
  | (Fails msg, s') => (Raise (handler msg), s')
  end.

(** ** The mirror's commands

    Each takes the answer of the connection: when the connection fails
    the store is left as it was. *)
Definition redis_setex (key : string) (ttl : Z) (v : terminal_info)
    (conn : ext unit) : M unit :=
  answer conn ;;; modify (set_redis (<[key := RString ttl v]>)).

Definition redis_lpush (key : string) (e : log_entry) (conn : ext unit)
    : M unit :=
  answer conn ;;;
  λ s, match redis s !! key with
       | None => modify (set_redis (<[key := RList None [e]]>)) s
       | Some (RList ttl l) =>
           modify (set_redis (<[key := RList ttl (e :: l)]>)) s
       | Some (RString _ _) =>
           (Fails "WRONGTYPE Operation against a key holding the wrong kind of value", s)
       end.

Definition redis_expire (key : string) (ttl : Z) (conn : ext unit) : M unit :=
  answer conn ;;;
  λ s, match redis s !! key with
       | None => M_ret tt s
       | Some (RList _ l) => modify (set_redis (<[key := RList (Some ttl) l]>)) s
       | Some (RString _ v) => modify (set_redis (<[key := RString ttl v]>)) s
       end.

Definition redis_delete (key : string) (conn : ext unit) : M unit :=
  answer conn ;;; modify (set_redis (delete key)).

(** ** What the world answers during one operation *)

(** During [create_agent_terminal]. *)
Record create_world : Type := {
  cw_uuid4 : string;             (* str(uuid.uuid4()) *)
  cw_makedirs : ext unit;        (* os.makedirs(log_dir, exist_ok=True) *)
  cw_run : ext string;           (* containers.run(...): the container's id *)
  cw_utcnow_created : datetime;  (* the clock read for "created_at" *)
  cw_utcnow_expires : datetime;  (* the clock read for "expires_at" *)
  cw_setex : ext unit            (* redis_client.setex(...) *)
}.

(** What [container.exec_run] returns. *)
Record exec_result : Type := {
  er_exit_code : Z;
  er_output : option bytes
}.

(** During [execute_command_in_terminal]. *)
Record exec_world : Type := {
  xw_get : ext unit;             (* containers.get(container_id) *)
  xw_now_start : datetime;       (* datetime.now() before the command *)
  xw_exec_run : ext exec_result; (* container.exec_run(...) *)
  xw_now_end : datetime;         (* datetime.now() after the command *)
  xw_utcnow : datetime;          (* the clock read for the log entry *)
  xw_lpush : ext unit;           (* redis_client.lpush(...) *)
  xw_expire : ext unit           (* redis_client.expire(...) *)
}.

(** During [get_terminal_logs]. *)
Record logs_world : Type := {
  lw_get : ext unit;             (* containers.get(container_id) *)
  lw_logs : ext bytes            (* container.logs(tail=lines, timestamps=True) *)
}.

(** During [destroy_terminal]. *)
Record destroy_world : Type := {
  dw_get : ext unit;             (* containers.get(container_id) *)
  dw_stop : ext unit;            (* container.stop(timeout=10) *)
  dw_remove : ext unit;          (* container.remove() *)
  dw_delete_terminal : ext unit; (* redis_client.delete("terminal:<id>") *)
  dw_delete_commands : ext unit  (* redis_client.delete("terminal:<id>:commands") *)
}.

(** ** Credentials *)

(** A value of a token's payload: a string, a number (kept in millionths
    so that a clock reading is exact) or a [datetime] object. *)
Inductive claim : Type :=
| CStr (s : string)
| CNum (micros : Z)
| CDatetime (t : datetime).

Global Instance claim_eq_dec : EqDecision claim.
Proof. solve_decision. Defined.

(** What [jwt.decode] does: it returns the payload or raises. *)
Inductive jwt_result : Type :=
| Decoded (payload : dict claim)
| ExpiredSignatureError
| JWTError.

Section Server.

Variable config : Config.

(** ** Terminal management functions *)

(** The [command] handed to [containers.run]. *)
Definition start_command (agent_id terminal_id command : string) : string :=
  "bash -c " +:+ dq
  +:+ "echo " +:+ bdq +:+ "=== Agent Terminal Started ===" +:+ bdq
  +:+ " && echo " +:+ bdq +:+ "Agent ID: " +:+ agent_id +:+ bdq
  +:+ " && echo " +:+ bdq +:+ "Terminal ID: " +:+ terminal_id +:+ bdq
  +:+ " && echo " +:+ bdq +:+ "Timestamp: $(date)" +:+ bdq
  +:+ " && echo " +:+ bdq +:+ "Working Directory: $(pwd)" +:+ bdq
  +:+ " && echo " +:+ bdq +:+ "User: $(whoami)" +:+ bdq
  +:+ " && echo && echo " +:+ bdq +:+ "Terminal ready for commands" +:+ bdq
  +:+ " && echo " +:+ bdq +:+ "$(date): Terminal " +:+ terminal_id
  +:+ " started" +:+ bdq +:+ " > /tmp/logs/session.log && " +:+ command
  +:+ dq.

(** The terminals of [agent_id] that count against its limit. *)
Definition agent_running (agent_id : string) (d : dict terminal_info)
    : list terminal_info :=
  filter (λ t, ti_agent_id t = agent_id ∧ ti_status t = running)
         (PyDict.values d).

(** The environment handed to the container. *)
Definition prepare_env (agent_id terminal_id : string)
    (environment : option (dict string)) : dict string :=
  let env_vars :=
    [("AGENT_ID", agent_id); ("TERMINAL_ID", terminal_id);
     ("LOG_DIR", "/tmp/logs")] in
  match environment with
  | Some e => if PyDict.truthy e then PyDict.update env_vars e else env_vars
  | None => env_vars
  end.

Definition create_agent_terminal (agent_id command : string)
    (environment : option (dict string)) (w : create_world) (s : state)
    : result terminal_info * state :=
  let terminal_id := cw_uuid4 w in
  (* Check terminal limits *)
  let agent_terminals := agent_running agent_id (terminals s) in
  if decide (MAX_TERMINALS_PER_AGENT config ≤ length agent_terminals)%nat then
    (Raise (HTTPException 429
              ("Maximum terminals ("
               +:+ pretty (MAX_TERMINALS_PER_AGENT config)
               +:+ ") reached for agent")), s)
  else
    (* Create log directory *)
    let log_dir :=
      os_path_join (LOG_BASE_DIR config) [agent_id; terminal_id] in
    match cw_makedirs w with
    | Fails msg => (Raise (OtherException msg), s)
    | Done _ =>
        (* Prepare environment variables *)
        let env_vars := prepare_env agent_id terminal_id environment in
        try_except
          (container_id <-
             docker (containers_run (TERMINAL_IMAGE config)
                       (start_command agent_id terminal_id command)
                       env_vars log_dir ("mcp-terminal-" +:+ terminal_id))
                    (cw_run w) ;;
           let terminal_info :=
             {| ti_terminal_id := terminal_id;
                ti_agent_id := agent_id;
                ti_container_id := container_id;
                ti_status := running;
                ti_created_at := cw_utcnow_created w;
                ti_log_dir := log_dir;
                ti_command := command;
                ti_expires_at :=
                  cw_utcnow_expires w
                  + timedelta_hours (TERMINAL_TIMEOUT_HOURS config) |} in
           modify (set_terminals (PyDict.setitem terminal_id terminal_info)) ;;;
           (* Store in Redis for persistence *)
           redis_setex ("terminal:" +:+ terminal_id)
             (TERMINAL_TIMEOUT_HOURS config * 3600) terminal_info
             (cw_setex w) ;;;
           M_ret terminal_info)
          (λ e, HTTPException 500 ("Failed to create terminal: " +:+ e))
          s
    end.

(** [result.output.decode('utf-8') if result.output else ""] *)
Definition decode_output (o : option bytes) : ext string :=
  match o with
  | None | Some [] => Done ""
  | Some b => decode_utf8 b
  end.

Definition execute_command_in_terminal (terminal_id command : string)
    (timeout : Z) (w : exec_world) (s : state)
    : result ExecuteResponse * state :=
  match PyDict.get terminal_id (terminals s) with
  | None => (Raise (HTTPException 404 "Terminal not found"), s)
  | Some terminal =>
      if decide (ti_status terminal ≠ running) then
        (Raise (HTTPException 400 "Terminal not running"), s)
      else
        try_except
          (docker (containers_get (ti_container_id terminal)) (xw_get w) ;;;
           result <-
             docker (container_exec_run (ti_container_id terminal) command
                       true true false timeout)
                    (xw_exec_run w) ;;
           let execution_time := xw_now_end w - xw_now_start w in
           (* Log the command execution *)
           let log_entry :=
             {| le_timestamp := xw_utcnow w;
                le_terminal_id := terminal_id;
                le_agent_id := ti_agent_id terminal;
                le_command := command;
                le_exit_code := er_exit_code result;
                le_execution_time := execution_time |} in
           redis_lpush ("terminal:" +:+ terminal_id +:+ ":commands")
             log_entry (xw_lpush w) ;;;
           redis_expire ("terminal:" +:+ terminal_id +:+ ":commands")
             (TERMINAL_TIMEOUT_HOURS config * 3600) (xw_expire w) ;;;
           out <- answer (decode_output (er_output result)) ;;
           M_ret {| output := out;
                    error := "";
                    exit_code := er_exit_code result;
                    execution_time := execution_time |})
          (λ e, HTTPException 500 ("Command execution failed: " +:+ e))
          s
  end.

Definition get_terminal_logs (terminal_id : string) (lines : Z)
    (w : logs_world) (s : state) : result string * state :=
  match PyDict.get terminal_id (terminals s) with
  | None => (Raise (HTTPException 404 "Terminal not found"), s)
  | Some terminal =>
      try_except
        (docker (containers_get (ti_container_id terminal)) (lw_get w) ;;;
         logs <-
           docker (container_logs (ti_container_id terminal) lines true)
                  (lw_logs w) ;;
         answer (decode_utf8 logs))
        (λ e, HTTPException 500 ("Failed to get logs: " +:+ e))
        s
  end.

(** [terminals[terminal_id]["status"] = "destroyed"] *)
Definition mark_destroyed (terminal_id : string) (d : dict terminal_info)
    : dict terminal_info :=
  match PyDict.get terminal_id d with
  | Some t => PyDict.setitem terminal_id (with_status destroyed t) d
  | None => d
  end.

Definition destroy_terminal (terminal_id : string) (w : destroy_world)
    (s : state) : result bool * state :=
  match PyDict.get terminal_id (terminals s) with
  | None => (Raise (HTTPException 404 "Terminal not found"), s)
  | Some terminal =>
      try_except
        ((* Stop and remove container *)
         docker (containers_get (ti_container_id terminal)) (dw_get w) ;;;
         docker (container_stop (ti_container_id terminal) 10) (dw_stop w) ;;;
         docker (container_remove (ti_container_id terminal)) (dw_remove w) ;;;
         (* Update status *)
         modify (set_terminals (mark_destroyed terminal_id)) ;;;
         (* Remove from Redis *)
         redis_delete ("terminal:" +:+ terminal_id) (dw_delete_terminal w) ;;;
         redis_delete ("terminal:" +:+ terminal_id +:+ ":commands")
           (dw_delete_commands w) ;;;
         M_ret true)
        (λ e, HTTPException 500 ("Failed to destroy terminal: " +:+ e))
        s
  end.

(** The identifiers one round of [cleanup_expired_terminals] collects. *)
Definition expired_terminals (current_time : datetime)
    (d : dict terminal_info) : list string :=
  (filter (λ kv, ti_status kv.2 = running
                 ∧ ti_expires_at kv.2 < current_time) d).*1.

(** One round of the loop of [cleanup_expired_terminals]: a failure to
    destroy one terminal is logged and the round goes on. *)
Definition cleanup_expired_terminals (current_time : datetime)
    (w : string → destroy_world) (s : state) : state :=
  foldl (λ s' terminal_id, (destroy_terminal terminal_id (w terminal_id) s').2)
        s (expired_terminals current_time (terminals s)).

(** ** API routes

    A route that declares [token_data = Depends(verify_token)] is entered
    only with the payload [verify_token] returned; the route body is a
    function of that payload. *)

(** [x != token_data.get("agent_id")] for a string [x]. *)
Definition agent_mismatch (agent_id : string) (token_data : dict claim)
    : bool :=
  bool_decide (PyDict.get "agent_id" token_data ≠ Some (CStr agent_id)).

(** [request.command or "bash"] *)
Definition command_or_bash (c : option string) : string :=
  match c with
  | None | Some "" => "bash"
  | Some c' => c'
  end.

(** [request.timeout or 30] *)
Definition timeout_or_30 (t : option Z) : Z :=
  match t with
  | None | Some 0 => 30
  | Some t' => t'
  end.

(** [POST /terminals] *)
Definition create_terminal (request : TerminalCreateRequest)
    (token_data : dict claim) (w : create_world) (s : state)
    : result TerminalResponse * state :=
  (* Verify agent_id matches token *)
  if agent_mismatch (req_agent_id request) token_data then
    (Raise (HTTPException 403 "Agent ID mismatch"), s)
  else
    match create_agent_terminal (req_agent_id request)
            (command_or_bash (req_command request))
            (Some (default PyDict.empty (req_environment request))) w s with
    | (Raise e, s') => (Raise e, s')
    | (Return terminal_info, s') =>
        (Return {| resp_terminal_id := ti_terminal_id terminal_info;
                   resp_agent_id := ti_agent_id terminal_info;
                   resp_status := status_str (ti_status terminal_info);
                   resp_created_at := ti_created_at terminal_info;
                   resp_container_id := ti_container_id terminal_info;
                   resp_log_path := ti_log_dir terminal_info |}, s')
    end.

(** [POST /terminals/{terminal_id}/execute] *)
Definition execute_command (terminal_id : string)
    (request : TerminalExecuteRequest) (token_data : dict claim)
    (w : exec_world) (s : state) : result ExecuteResponse * state :=
  (* Verify the agent owns this terminal *)
  match PyDict.get terminal_id (terminals s) with
  | None => (Raise (HTTPException 404 "Terminal not found"), s)
  | Some terminal =>
      if agent_mismatch (ti_agent_id terminal) token_data then
        (Raise (HTTPException 403 "Access denied"), s)
      else
        execute_command_in_terminal terminal_id (req_exec_command request)
          (timeout_or_30 (req_timeout request)) w s
  end.

(** [GET /terminals/{terminal_id}/logs] *)
Definition get_logs (terminal_id : string) (lines : Z)
    (token_data : dict claim) (w : logs_world) (s : state)
    : result string * state :=
  match PyDict.get terminal_id (terminals s) with
  | None => (Raise (HTTPException 404 "Terminal not found"), s)
  | Some terminal =>
      if agent_mismatch (ti_agent_id terminal) token_data then
        (Raise (HTTPException 403 "Access denied"), s)
      else get_terminal_logs terminal_id lines w s
  end.

(** [DELETE /terminals/{terminal_id}]; the result is the ["success"]
    entry of the answer. *)
Definition delete_terminal (terminal_id : string) (token_data : dict claim)
    (w : destroy_world) (s : state) : result bool * state :=
  match PyDict.get terminal_id (terminals s) with
  | None => (Raise (HTTPException 404 "Terminal not found"), s)
  | Some terminal =>
      if agent_mismatch (ti_agent_id terminal) token_data then
        (Raise (HTTPException 403 "Access denied"), s)
      else destroy_terminal terminal_id w s
  end.

(** [GET /terminals]; the result is the ["terminals"] entry. *)
Definition list_terminals (token_data : dict claim) (s : state)
    : list terminal_info :=
  let agent_id := PyDict.get "agent_id" token_data in
  filter (λ t, Some (CStr (ti_agent_id t)) = agent_id)
         (PyDict.values (terminals s)).

(** [GET /health]; the result is the ["terminals"] entry. *)
Definition health_check (s : state) : nat :=
  length (filter (λ t, ti_status t = running) (PyDict.values (terminals s))).

(** What the server writes on a WebSocket. *)
Inductive ws_event : Type :=
| send_json_error (msg : string)
| send_text (line : string)
| ws_close.

(** During [terminal_stream]. *)
Record stream_world : Type := {
  sw_get : ext unit;              (* containers.get(container_id) *)
  sw_lines : ext (list bytes)     (* the lines relayed before the channel ends *)
}.

(** The lines sent until one fails to decode. *)
Fixpoint relay (lines : list bytes) : list ws_event :=
  match lines with
  | [] => []
  | l :: lines' =>
      match decode_utf8 l with
      | Done text => send_text text :: relay lines'
      | Fails _ => []
      end
  end.

(** [WS /terminals/{terminal_id}/stream]; [decoded] is what [jwt.decode]
    does on [token]. *)
Definition terminal_stream (terminal_id : string) (token : option string)
    (decoded : jwt_result) (w : stream_world) (s : state)
    : list ws_event * state :=
  match token with
  | None | Some "" => ([send_json_error "Token required"; ws_close], s)
  | Some _ =>
      match decoded with
      | JWTError => ([send_json_error "Invalid token"; ws_close], s)
      | ExpiredSignatureError => ([ws_close], s)
      | Decoded payload =>
          match PyDict.get terminal_id (terminals s) with
          | None => ([send_json_error "Terminal not found"; ws_close], s)
          | Some terminal =>
              if agent_mismatch (ti_agent_id terminal) payload then
                ([send_json_error "Access denied"; ws_close], s)
              else
                match (docker (containers_get (ti_container_id terminal))
                         (sw_get w) ;;;
                       docker (container_logs_stream
                                 (ti_container_id terminal))
                         (sw_lines w)) s with
                | (Done lines, s') => (relay lines, s')
                | (Fails _, s') => ([ws_close], s')
                end
          end
      end
  end.

(** ** The server as a transition system *)

(** One operation of the server with what the world answers to it. *)
Inductive operation : Type :=
| op_create_terminal (request : TerminalCreateRequest)
    (token_data : dict claim) (w : create_world)
| op_execute_command (terminal_id : string)
    (request : TerminalExecuteRequest) (token_data : dict claim)
    (w : exec_world)
| op_get_logs (terminal_id : string) (lines : Z) (token_data : dict claim)
    (w : logs_world)
| op_delete_terminal (terminal_id : string) (token_data : dict claim)
    (w : destroy_world)
| op_list_terminals (token_data : dict claim)
| op_health_check
| op_terminal_stream (terminal_id : string) (token : option string)
    (decoded : jwt_result) (w : stream_world)
| op_cleanup (current_time : datetime) (w : string → destroy_world).

(** The state an operation leaves. *)
Definition step (o : operation) (s : state) : state :=
  match o with
  | op_create_terminal request token_data w =>
      (create_terminal request token_data w s).2
  | op_execute_command terminal_id request token_data w =>
      (execute_command terminal_id request token_data w s).2
  | op_get_logs terminal_id lines token_data w =>
      (get_logs terminal_id lines token_data w s).2
  | op_delete_terminal terminal_id token_data w =>
      (delete_terminal terminal_id token_data w s).2
  | op_list_terminals _ => s
  | op_health_check => s
  | op_terminal_stream terminal_id token decoded w =>
      (terminal_stream terminal_id token decoded w s).2
  | op_cleanup current_time w => cleanup_expired_terminals current_time w s
  end.

(** The states the server goes through from its start. *)
Definition run (ops : list operation) (s : state) : state :=
  foldl (λ s' o, step o s') s ops.

Inductive reachable : state → Prop :=
| reachable_initial : reachable initial_state
| reachable_step o s : reachable s → reachable (step o s).

(** The identifier an operation draws for a new terminal, if any. *)
Definition drawn_id (o : operation) : option string :=
  match o with
  | op_create_terminal _ _ w => Some (cw_uuid4 w)
  | _ => None
  end.

(** [uuid.uuid4] never hands out the key of a stored terminal. *)
Definition fresh_id (o : operation) (s : state) : Prop :=
  ∀ tid, drawn_id o = Some tid → PyDict.get tid (terminals s) = None.

End Server.

(** ** Tokens *)

(** A [datetime] claim is written as a whole number of seconds. *)
Definition numeric_date (t : datetime) : Z := t / 1000000 * 1000000.

(** The payload as the token's JSON text carries it. *)
Definition json_claims (payload : dict claim) : dict claim :=
  prod_map id (λ c, match c with
                    | CDatetime t => CNum (numeric_date t)
                    | _ => c
                    end) <$> payload.

(** The token library: [jwt.encode(payload, key, algorithm)] and
    [jwt.decode(token, key, algorithms)] at a reading [now] of the clock.
    Its one law: a token it encoded, presented with the same key and
    algorithm after its issue time and before its expiry, decodes to the
    payload it was made from. *)
Class JWT : Type := {
  jwt_encode : dict claim → string → string → string;
  jwt_decode : string → string → list string → datetime → jwt_result;
  jwt_decode_encode payload key algorithm now :
    (∀ e, PyDict.get "exp" (json_claims payload) = Some (CNum e) → now < e) →
    (∀ i, PyDict.get "iat" (json_claims payload) = Some (CNum i) → i ≤ now) →
    jwt_decode (jwt_encode payload key algorithm) key [algorithm] now
    = Decoded (json_claims payload)
}.

(** The answer of [POST /auth/token]. *)
Record token_response : Type := {
  access_token : string;
  token_type : string;
  expires_in : Z
}.

Section Auth.

Variable config : Config.
Context `{JWT}.

(** [utcnow] is the clock read for the expiry. *)
Definition create_access_token (data : dict claim) (utcnow : datetime)
    : string :=
  let to_encode := data in
  let expire := utcnow + timedelta_hours (JWT_EXPIRE_HOURS config) in
  let to_encode := PyDict.update to_encode [("exp", CDatetime expire)] in
  jwt_encode to_encode (JWT_SECRET config) (JWT_ALGORITHM config).

(** [now] is the clock [jwt.decode] reads. *)
Definition verify_token (credentials : string) (now : datetime)
    : result (dict claim) :=
  match jwt_decode credentials (JWT_SECRET config) [JWT_ALGORITHM config]
          now with
  | Decoded payload => Return payload
  | ExpiredSignatureError => Raise (HTTPException 401 "Token expired")
  | JWTError => Raise (HTTPException 401 "Invalid token")
  end.

(** [POST /auth/token]: the route takes the [agent_id] of the query and
    no credential.  [iat] is the number [datetime.utcnow().timestamp()]
    evaluates to, in millionths; [utcnow] is the clock read in
    [create_access_token]. *)
Definition create_token (agent_id : string) (iat : Z) (utcnow : datetime)
    : token_response :=
  let token_data := [("agent_id", CStr agent_id); ("iat", CNum iat)] in
  let token := create_access_token token_data utcnow in
  {| access_token := token;
     token_type := "bearer";
     expires_in := JWT_EXPIRE_HOURS config * 3600 |}.

End Auth.

(** *** A token library to run the definitions with

    The token spells out, bit by bit, the number that codes the payload,
    the key and the algorithm. *)

Definition claim_to_sum (c : claim) : string + (Z + Z) :=
  match c with
  | CStr s => inl s
  | CNum n => inr (inl n)
  | CDatetime t => inr (inr t)
  end.

Definition claim_of_sum (x : string + (Z + Z)) : claim :=
  match x with
  | inl s => CStr s
  | inr (inl n) => CNum n
  | inr (inr t) => CDatetime t
  end.

Global Instance claim_countable : Countable claim.
Proof.
  apply (inj_countable' claim_to_sum claim_of_sum). by intros [].
Defined.

Fixpoint bits_of_pos (p : positive) : string :=
  match p with
  | xH => ""
  | xO p' => String "0"%char (bits_of_pos p')
  | xI p' => String "1"%char (bits_of_pos p')
  end.

Fixpoint pos_of_bits (s : string) : option positive :=
  match s with
  | "" => Some xH
  | String c s' =>
      if bool_decide (c = "0"%char) then xO <$> pos_of_bits s'
      else if bool_decide (c = "1"%char) then xI <$> pos_of_bits s'
      else None
  end.

Definition plain_encode (payload : dict claim) (key algorithm : string)
    : string :=
  bits_of_pos (encode (json_claims payload, key, algorithm)).

Definition plain_decode (token key : string) (algorithms : list string)
    (now : datetime) : jwt_result :=
  match pos_of_bits token ≫= decode with
  | Some (payload, k, a) =>
      if bool_decide (k = key ∧ a ∈ algorithms) then
        match PyDict.get "exp" payload, PyDict.get "iat" payload with
        | Some (CNum e), _ =>
            if bool_decide (now < e) then
              match PyDict.get "iat" payload with
              | Some (CNum i) =>
                  if bool_decide (i ≤ now) then Decoded payload else JWTError
              | _ => Decoded payload
              end
            else ExpiredSignatureError
        | _, Some (CNum i) =>
            if bool_decide (i ≤ now) then Decoded payload else JWTError
        | _, _ => Decoded payload
        end
      else JWTError
  | None => JWTError
  end.

(** ** Sample worlds *)

Definition world_create (uuid container_id : string) (now : datetime)
    : create_world :=
  {| cw_uuid4 := uuid; cw_makedirs := Done (); cw_run := Done container_id;
     cw_utcnow_created := now; cw_utcnow_expires := now;
     cw_setex := Done () |}.

Definition world_destroy : destroy_world :=
  {| dw_get := Done (); dw_stop := Done (); dw_remove := Done ();
     dw_delete_terminal := Done (); dw_delete_commands := Done () |}.

Definition world_exec (out : bytes) (code : Z) : exec_world :=
  {| xw_get := Done (); xw_now_start := 0;
     xw_exec_run := Done {| er_exit_code := code; er_output := Some out |};
     xw_now_end := 1500; xw_utcnow := 2000; xw_lpush := Done ();
     xw_expire := Done () |}.

Definition world_logs (out : bytes) : logs_world :=
  {| lw_get := Done (); lw_logs := Done out |}.

Definition token_of (agent_id : string) : dict claim :=
  [("agent_id", CStr agent_id)].

Definition request_of (agent_id : string) (timeout_hours : Z)
    : TerminalCreateRequest :=
  {| req_agent_id := agent_id; req_command := Some "bash";
     req_environment := None; req_timeout_hours := Some timeout_hours |}.

(** The operation by which agent [agent_id] creates a terminal that draws
    the identifier [uuid]. *)
Definition creates (agent_id uuid : string) : operation :=
  op_create_terminal (request_of agent_id 4) (token_of agent_id)
    (world_create uuid ("c-" +:+ uuid) 0).

(** The server after agent ["a1"] created five terminals. *)
Definition state_full : state :=
  run default_config (creates "a1" <$> ["t1"; "t2"; "t3"; "t4"; "t5"])
    initial_state.

Definition exec_request (command : string) : TerminalExecuteRequest :=
  {| req_exec_command := command; req_timeout := None |}.

(** The record of terminal ["t1"] of agent ["a1"], created at time 0. *)
Definition terminal_t1 : terminal_info :=
  {| ti_terminal_id := "t1"; ti_agent_id := "a1";
     ti_container_id := "c1"; ti_status := running;
     ti_created_at := 0; ti_log_dir := "/tmp/agent-logs/a1/t1";
     ti_command := "bash"; ti_expires_at := 14400000000 |}.

(** The server after agent ["a1"] created terminal ["t1"]. *)
Definition state_t1 : state :=
  step default_config
    (op_create_terminal (request_of "a1" 4) (token_of "a1")
       (world_create "t1" "c1" 0))
    initial_state.

(** The server after ["a1"] then destroyed ["t1"]. *)
Definition state_t1_destroyed : state :=
  step default_config (op_delete_terminal "t1" (token_of "a1") world_destroy)
    state_t1.

(** The engine's answer once container ["c1"] is removed. *)
Definition no_such_container : string := "No such container: c1".

Definition world_logs_gone : logs_world :=
  {| lw_get := Fails no_such_container; lw_logs := Fails no_such_container |}.

Definition world_destroy_gone : destroy_world :=
  {| dw_get := Fails no_such_container; dw_stop := Fails no_such_container;
     dw_remove := Fails no_such_container;
     dw_delete_terminal := Done (); dw_delete_commands := Done () |}.

(** The same worlds with other answers of the mirror. *)
Definition with_setex (o : ext unit) (w : create_world) : create_world :=
  {| cw_uuid4 := cw_uuid4 w; cw_makedirs := cw_makedirs w;
     cw_run := cw_run w; cw_utcnow_created := cw_utcnow_created w;
     cw_utcnow_expires := cw_utcnow_expires w; cw_setex := o |}.

Definition with_deletes (o1 o2 : ext unit) (w : destroy_world)
    : destroy_world :=
  {| dw_get := dw_get w; dw_stop := dw_stop w; dw_remove := dw_remove w;
     dw_delete_terminal := o1; dw_delete_commands := o2 |}.

(** The injected variables of [create_agent_terminal]. *)
Definition injected_env (agent_id terminal_id : string) : dict string :=
  [("AGENT_ID", agent_id); ("TERMINAL_ID", terminal_id);
   ("LOG_DIR", "/tmp/logs")].

(** ** Vocabulary of the properties *)

(** A computation keeps [I] on [terminals], raising or not. *)
Definition preserves {A} (I : dict terminal_info → Prop) (m : M A) : Prop :=
  ∀ s, I (terminals s) → I (terminals (m s).2).

(** Marking the terminals [tids] destroyed, one after the other. *)
Definition mark_all (tids : list string) (d : dict terminal_info)
    : dict terminal_info :=
  foldl (λ d' tid, mark_destroyed tid d') d tids.

(** Reached from [d] by marking terminals destroyed. *)
Definition marked_from (d d' : dict terminal_info) : Prop :=
  ∃ tids, d' = mark_all tids d.

(** What an operation may do to the dictionary: mark terminals
    destroyed, or store one running terminal under the identifier it
    drew, for an agent that was under its limit. *)
Definition terminals_change (config : Config) (o : operation)
    (d d' : dict terminal_info) : Prop :=
  marked_from d d'
  ∨ ∃ info,
      d' = PyDict.setitem (ti_terminal_id info) info d
      ∧ drawn_id o = Some (ti_terminal_id info)
      ∧ ti_status info = running
      ∧ (length (agent_running (ti_agent_id info) d)
         < MAX_TERMINALS_PER_AGENT config)%nat.

(** No agent has more running terminals than the limit. *)
Definition within_quota (config : Config) (d : dict terminal_info) : Prop :=
  ∀ agent_id,
    (length (agent_running agent_id d) ≤ MAX_TERMINALS_PER_AGENT config)%nat.

(** Every terminal of [d] is still in [d'], as it was or marked
    destroyed. *)
Definition kept (d d' : dict terminal_info) : Prop :=
  ∀ tid t, PyDict.get tid d = Some t →
    PyDict.get tid d' = Some t
    ∨ PyDict.get tid d' = Some (with_status destroyed t).

(** Every identifier drawn along the run is fresh when it is drawn. *)
Fixpoint fresh_run (config : Config) (ops : list operation) (s : state)
    : Prop :=
  match ops with
  | [] => True
  | o :: ops' => fresh_id o s ∧ fresh_run config ops' (step config o s)
  end.

(** The HTTP status a result is answered with when it is an
    [HTTPException]. *)
Definition raised_status {A} (r : result A) : option Z :=
  match r with
  | Raise (HTTPException status_code _) => Some status_code
  | _ => None
  end.

(** The caller's token names the owner of the terminal. *)
Definition owned_by (token_data : dict claim) (t : terminal_info) : Prop :=
  PyDict.get "agent_id" token_data = Some (CStr (ti_agent_id t)).

(** The operations that write [terminals], and those that write the
    mirror. *)
Definition writes_terminals (o : operation) : bool :=
  match o with
  | op_create_terminal _ _ _ | op_delete_terminal _ _ _ | op_cleanup _ _ => true
  | _ => false
  end.

Definition writes_mirror (o : operation) : bool :=
  match o with
  | op_execute_command _ _ _ _ => true
  | _ => writes_terminals o
  end.

Global Instance ext_eq_dec {A} `{EqDecision A} : EqDecision (ext A).
Proof. solve_decision. Defined.

(** The engine did all [destroy_terminal] asks of it. *)
Definition engine_destroys (w : destroy_world) : Prop :=
  dw_get w = Done () ∧ dw_stop w = Done () ∧ dw_remove w = Done ().

Global Instance engine_destroys_dec w : Decision (engine_destroys w).
Proof. unfold engine_destroys. apply _. Defined.

(** A computation keeps a property of the whole server state. *)
Definition keeps {A} (J : state → Prop) (m : M A) : Prop :=
  ∀ s, J s → J (m s).2.

(** Every terminal text in the mirror sits under the key of its own
    identifier, with the configured timeout, says [running], and names a
    terminal that [terminals] stores. *)
Definition mirror_sound (config : Config) (s : state) : Prop :=
  ∀ key ttl v,
    redis s !! key = Some (RString ttl v) →
    key = "terminal:" +:+ ti_terminal_id v
    ∧ ttl = TERMINAL_TIMEOUT_HOURS config * 3600
    ∧ ti_status v = running
    ∧ is_Some (PyDict.get (ti_terminal_id v) (terminals s)).

(** * Properties *)

(** ** Dictionaries *)

Section PyDictFacts.

Context {V : Type}.
Implicit Types (d : dict V) (k : string) (v : V).

Lemma get_setitem_eq d k v : PyDict.get k (PyDict.setitem k v d) = Some v.
Proof.
  induction d as [|[k' v'] d IH]; simpl.
  - by rewrite decide_True.
  - destruct (decide (k' = k)) as [->|Hne]; simpl.
    + by rewrite decide_True.
    + by rewrite decide_False.
Qed.

Lemma get_setitem_ne d k k' v :
  k ≠ k' → PyDict.get k' (PyDict.setitem k v d) = PyDict.get k' d.
Proof.
  intros Hne. induction d as [|[k0 v0] d IH]; simpl.
  - by rewrite decide_False.
  - destruct (decide (k0 = k)) as [->|Hk]; simpl.
    + by rewrite !decide_False.
    + by rewrite IH.
Qed.

Lemma get_setitem d k k' v :
  PyDict.get k' (PyDict.setitem k v d)
  = if decide (k = k') then Some v else PyDict.get k' d.
Proof.
  destruct (decide (k = k')) as [->|Hne].
  - apply get_setitem_eq.
  - by apply get_setitem_ne.
Qed.

Lemma get_Some_elem_of d k v : PyDict.get k d = Some v → v ∈ PyDict.values d.
Proof.
  induction d as [|[k' v'] d IH]; simpl; [done|].
  destruct (decide (k' = k)); intros H.
  - injection H as ->. apply list_elem_of_here.
  - apply list_elem_of_further. by apply IH.
Qed.

(** Writing one key adds at most the written value to what a
    comprehension over the values selects. *)
Lemma filter_setitem_length (P : V → Prop) `{!∀ x, Decision (P x)} d k v :
  (length (filter P (PyDict.values (PyDict.setitem k v d)))
   ≤ length (filter P (PyDict.values d)) + (if decide (P v) then 1 else 0))%nat.
Proof.
  unfold PyDict.values.
  induction d as [|[k' v'] d IH]; csimpl.
  - rewrite filter_cons, filter_nil. destruct (decide (P v)); simpl; lia.
  - destruct (decide (k' = k)) as [->|Hne]; csimpl; rewrite !filter_cons.
    + destruct (decide (P v)), (decide (P v')); simpl; lia.
    + destruct (decide (P v')); simpl; lia.
Qed.

(** Replacing a stored value by one the comprehension rejects cannot
    grow the selection. *)
Lemma filter_setitem_reject (P : V → Prop) `{!∀ x, Decision (P x)} d k v :
  ¬ P v →
  (length (filter P (PyDict.values (PyDict.setitem k v d)))
   ≤ length (filter P (PyDict.values d)))%nat.
Proof.
  intros Hv. pose proof (filter_setitem_length P d k v) as Hle.
  rewrite decide_False in Hle by done. lia.
Qed.

Lemma get_None_keys d k : PyDict.get k d = None ↔ k ∉ PyDict.keys d.
Proof.
  unfold PyDict.keys. induction d as [|[k' v'] d IH]; csimpl.
  - split; [intros _; apply not_elem_of_nil|done].
  - rewrite not_elem_of_cons. destruct (decide (k' = k)) as [->|Hne].
    + split; [done|]. by intros [? _].
    + rewrite IH. split; [by split|by intros [_ ?]].
Qed.

(** [d.update(e)]: the entries of [e] win, the others are those of [d]. *)
Lemma get_update d e k :
  NoDup (PyDict.keys e) →
  PyDict.get k (PyDict.update d e)
  = match PyDict.get k e with
    | Some v => Some v
    | None => PyDict.get k d
    end.
Proof.
  unfold PyDict.update, PyDict.keys.
  revert d. induction e as [|[k0 v0] e IH]; intros d; csimpl; [done|].
  rewrite NoDup_cons. intros [Hk0 Hnd]. rewrite IH by done.
  destruct (decide (k0 = k)) as [->|Hne].
  - apply get_None_keys in Hk0. by rewrite Hk0, get_setitem_eq.
  - by rewrite get_setitem_ne.
Qed.

(** Replacing the value of a stored key trades the old value for the new
    one in what a comprehension over the values selects. *)
Lemma filter_setitem_replace (P : V → Prop) `{!∀ x, Decision (P x)} d k v v0 :
  PyDict.get k d = Some v0 →
  (length (filter P (PyDict.values (PyDict.setitem k v d)))
   + (if decide (P v0) then 1 else 0)
   = length (filter P (PyDict.values d)) + (if decide (P v) then 1 else 0))%nat.
Proof.
  unfold PyDict.values.
  induction d as [|[k' v'] d IH]; csimpl; [done|].
  destruct (decide (k' = k)) as [->|Hne]; csimpl; rewrite !filter_cons.
  - intros [= ->]. destruct (decide (P v)), (decide (P v0)); simpl; lia.
  - intros Hget. specialize (IH Hget).
    destruct (decide (P v')); simpl; lia.
Qed.

End PyDictFacts.

(** ** What a [try] body does to the dictionary of terminals *)

Section Preserves.

Variable I : dict terminal_info → Prop.

Lemma preserves_ret {A} (a : A) : preserves I (M_ret a).
Proof. by intros s. Qed.

Lemma preserves_answer {A} (o : ext A) : preserves I (answer o).
Proof. by intros s. Qed.

Lemma preserves_docker {A} c (o : ext A) : preserves I (docker c o).
Proof. by intros s. Qed.

Lemma preserves_bind {A B} (m : M A) (k : A → M B) :
  preserves I m → (∀ a, preserves I (k a)) → preserves I (M_bind m k).
Proof.
  intros Hm Hk s Hs. unfold M_bind. specialize (Hm s Hs).
  destruct (m s) as [[a|msg] s']; simpl in *; [by apply Hk | done].
Qed.

Lemma preserves_set_redis f : preserves I (modify (set_redis f)).
Proof. by intros s. Qed.

Lemma preserves_set_terminals f :
  (∀ d, I d → I (f d)) → preserves I (modify (set_terminals f)).
Proof. intros Hf s Hs. by apply Hf. Qed.

Lemma preserves_redis_setex key ttl v conn :
  preserves I (redis_setex key ttl v conn).
Proof.
  apply preserves_bind; [apply preserves_answer|intros _].
  apply preserves_set_redis.
Qed.

Lemma preserves_redis_lpush key e conn : preserves I (redis_lpush key e conn).
Proof.
  apply preserves_bind; [apply preserves_answer|intros _].
  intros s Hs. by repeat case_match.
Qed.

Lemma preserves_redis_expire key ttl conn :
  preserves I (redis_expire key ttl conn).
Proof.
  apply preserves_bind; [apply preserves_answer|intros _].
  intros s Hs. by repeat case_match.
Qed.

Lemma preserves_redis_delete key conn : preserves I (redis_delete key conn).
Proof.
  apply preserves_bind; [apply preserves_answer|intros _].
  apply preserves_set_redis.
Qed.

Lemma preserves_try_except {A} (m : M A) h s :
  preserves I m → I (terminals s) → I (terminals (try_except m h s).2).
Proof.
  intros Hm Hs. unfold try_except. specialize (Hm s Hs).
  by destruct (m s) as [[a|msg] s'].
Qed.

End Preserves.

Create HintDb preserves discriminated.
#[export] Hint Resolve preserves_ret preserves_answer preserves_docker
  preserves_set_redis preserves_redis_setex preserves_redis_lpush
  preserves_redis_expire preserves_redis_delete : preserves.

(** Splits a [try] body into its calls and closes those that cannot touch
    [terminals]. *)
Ltac preserves_steps :=
  repeat first
    [ solve [auto with preserves]
    | apply preserves_bind; [|intros ?] ].

(** ** How one operation changes the dictionary of terminals *)

Section Change.

Variable config : Config.

Lemma marked_from_refl d : marked_from d d.
Proof. by exists []. Qed.

Lemma marked_from_mark d d' tid :
  marked_from d d' → marked_from d (mark_destroyed tid d').
Proof.
  intros [tids ->]. exists (tids ++ [tid])%list.
  unfold mark_all. by rewrite foldl_app.
Qed.

Lemma execute_command_in_terminal_marked tid cmd timeout w s :
  marked_from (terminals s)
    (terminals (execute_command_in_terminal config tid cmd timeout w s).2).
Proof.
  unfold execute_command_in_terminal.
  destruct (PyDict.get tid (terminals s)) as [t|]; [|apply marked_from_refl].
  case_decide; [apply marked_from_refl|].
  apply preserves_try_except; [|apply marked_from_refl].
  preserves_steps.
Qed.

Lemma get_terminal_logs_marked tid lines w s :
  marked_from (terminals s)
    (terminals (get_terminal_logs tid lines w s).2).
Proof.
  unfold get_terminal_logs.
  destruct (PyDict.get tid (terminals s)) as [t|]; [|apply marked_from_refl].
  apply preserves_try_except; [|apply marked_from_refl].
  preserves_steps.
Qed.

Lemma destroy_terminal_preserves d0 tid w s :
  marked_from d0 (terminals s) →
  marked_from d0 (terminals (destroy_terminal tid w s).2).
Proof.
  intros Hs. unfold destroy_terminal.
  destruct (PyDict.get tid (terminals s)) as [t|]; [|done].
  apply preserves_try_except; [|done].
  preserves_steps.
  apply preserves_set_terminals. intros d. apply marked_from_mark.
Qed.

Lemma cleanup_expired_terminals_marked now w s :
  marked_from (terminals s)
    (terminals (cleanup_expired_terminals now w s)).
Proof.
  unfold cleanup_expired_terminals.
  generalize (expired_terminals now (terminals s)).
  generalize (marked_from_refl (terminals s)).
  generalize (terminals s) at 1 3. intros d0 Hs tids.
  revert s Hs. induction tids as [|tid tids IH]; intros s Hs; simpl; [done|].
  apply IH. by apply destroy_terminal_preserves.
Qed.

Lemma terminal_stream_terminals tid token decoded w s :
  terminals (terminal_stream tid token decoded w s).2 = terminals s.
Proof.
  unfold terminal_stream, M_bind, docker.
  repeat case_match; simplify_eq/=; done.
Qed.

(** [create_agent_terminal] leaves the dictionary as it was, or has
    passed the limit check and stores one running terminal of the agent
    under the identifier it drew. *)
Lemma create_agent_terminal_change agent_id command environment w s :
  let d' := terminals
              (create_agent_terminal config agent_id command environment w s).2 in
  d' = terminals s
  ∨ ∃ info,
      d' = PyDict.setitem (cw_uuid4 w) info (terminals s)
      ∧ ti_terminal_id info = cw_uuid4 w
      ∧ ti_agent_id info = agent_id
      ∧ ti_status info = running
      ∧ (length (agent_running agent_id (terminals s))
         < MAX_TERMINALS_PER_AGENT config)%nat.
Proof.
  unfold create_agent_terminal.
  case_decide as Hq; [by left|].
  destruct (cw_makedirs w); [|by left].
  unfold try_except, M_bind, docker, modify, redis_setex, answer, M_ret.
  destruct (cw_run w) as [cid|]; simpl; [|by left].
  right. eexists. split_and!;
    [by destruct (cw_setex w)|reflexivity..|lia].
Qed.

Lemma step_change o s :
  terminals_change config o (terminals s) (terminals (step config o s)).
Proof.
  destruct o as [request token_data w|tid request token_data w
                |tid lines token_data w|tid token_data w| |
                |tid token decoded w|now w]; simpl.
  - unfold create_terminal.
    destruct (agent_mismatch _ _); [left; apply marked_from_refl|].
    pose proof (create_agent_terminal_change (req_agent_id request)
                  (command_or_bash (req_command request))
                  (Some (default PyDict.empty (req_environment request)))
                  w s) as Hc.
    destruct (create_agent_terminal _ _ _ _ _ _) as [[info|e] s']; simpl in *.
    all: destruct Hc as [->|(i & -> & Hid & Hag & Hst & Hq)];
      [left; apply marked_from_refl|].
    all: right; exists i; rewrite Hid, Hag; done.
  - left. unfold execute_command.
    destruct (PyDict.get tid (terminals s)); [|apply marked_from_refl].
    destruct (agent_mismatch _ _); [apply marked_from_refl|].
    apply execute_command_in_terminal_marked.
  - left. unfold get_logs.
    destruct (PyDict.get tid (terminals s)); [|apply marked_from_refl].
    destruct (agent_mismatch _ _); [apply marked_from_refl|].
    apply get_terminal_logs_marked.
  - left. unfold delete_terminal.
    destruct (PyDict.get tid (terminals s)); [|apply marked_from_refl].
    destruct (agent_mismatch _ _); [apply marked_from_refl|].
    apply destroy_terminal_preserves, marked_from_refl.
  - left. apply marked_from_refl.
  - left. apply marked_from_refl.
  - left. rewrite terminal_stream_terminals. apply marked_from_refl.
  - left. apply cleanup_expired_terminals_marked.
Qed.

End Change.

(** ** The per-agent limit *)

Section Quota.

Variable config : Config.

Lemma agent_running_mark_destroyed agent_id tid d :
  (length (agent_running agent_id (mark_destroyed tid d))
   ≤ length (agent_running agent_id d))%nat.
Proof.
  unfold mark_destroyed, agent_running.
  destruct (PyDict.get tid d) as [t|]; [|done].
  apply filter_setitem_reject. simpl. by intros [_ ?].
Qed.

Lemma agent_running_mark_all agent_id tids d :
  (length (agent_running agent_id (mark_all tids d))
   ≤ length (agent_running agent_id d))%nat.
Proof.
  revert d. induction tids as [|tid tids IH]; intros d; simpl; [done|].
  etrans; [apply IH|]. apply agent_running_mark_destroyed.
Qed.

Lemma within_quota_change o d d' :
  terminals_change config o d d' → within_quota config d → within_quota config d'.
Proof.
  intros [[tids ->]|(info & -> & _ & Hst & Hlt)] Hd agent_id.
  - etrans; [apply agent_running_mark_all|apply Hd].
  - specialize (Hd agent_id). unfold agent_running in *.
    etrans; [apply filter_setitem_length|].
    case_decide as Hinfo; [|lia].
    destruct Hinfo as [<- _]. lia.
Qed.

Lemma within_quota_step o s :
  within_quota config (terminals s) → within_quota config (terminals (step config o s)).
Proof. apply within_quota_change with o, step_change. Qed.

Lemma within_quota_run ops s :
  within_quota config (terminals s) →
  within_quota config (terminals (run config ops s)).
Proof.
  revert s. induction ops as [|o ops IH]; intros s Hs; simpl; [done|].
  by apply IH, within_quota_step.
Qed.

End Quota.

(** ** What happens to a stored terminal *)

Section Lifetime.

Variable config : Config.

Lemma kept_refl d : kept d d.
Proof. intros tid t Ht. by left. Qed.

Lemma kept_trans d1 d2 d3 : kept d1 d2 → kept d2 d3 → kept d1 d3.
Proof.
  intros H12 H23 tid t Ht.
  destruct (H12 tid t Ht) as [H2|H2]; destruct (H23 _ _ H2) as [H3|H3]; auto.
Qed.

Lemma get_mark_destroyed tid tid' d :
  PyDict.get tid' (mark_destroyed tid d)
  = if decide (tid = tid') then with_status destroyed <$> PyDict.get tid' d
    else PyDict.get tid' d.
Proof.
  unfold mark_destroyed.
  destruct (PyDict.get tid d) as [t|] eqn:Ht.
  - rewrite get_setitem. case_decide; [subst; by rewrite Ht|done].
  - case_decide; [subst; by rewrite Ht|done].
Qed.

Lemma kept_mark_destroyed tid d : kept d (mark_destroyed tid d).
Proof.
  intros tid' t Ht. rewrite get_mark_destroyed, Ht.
  case_decide; simpl; auto.
Qed.

Lemma kept_mark_all tids d : kept d (mark_all tids d).
Proof.
  revert d. induction tids as [|tid tids IH]; intros d; simpl.
  - apply kept_refl.
  - eapply kept_trans; [apply kept_mark_destroyed|apply IH].
Qed.

Lemma kept_setitem_fresh tid info d :
  PyDict.get tid d = None → kept d (PyDict.setitem tid info d).
Proof.
  intros Hfresh tid' t Ht. left.
  rewrite get_setitem_ne; [done|]. intros ->. congruence.
Qed.

Lemma kept_step o s :
  fresh_id o s → kept (terminals s) (terminals (step config o s)).
Proof.
  intros Hfresh.
  destruct (step_change config o s) as [[tids ->]|(info & -> & Hid & _)].
  - apply kept_mark_all.
  - apply kept_setitem_fresh. by apply Hfresh.
Qed.

Lemma kept_run ops s :
  fresh_run config ops s → kept (terminals s) (terminals (run config ops s)).
Proof.
  revert s. induction ops as [|o ops IH]; intros s; simpl.
  - intros _. apply kept_refl.
  - intros [Ho Hops]. eapply kept_trans; [by apply kept_step|by apply IH].
Qed.

End Lifetime.

Lemma pos_of_bits_of_pos p : pos_of_bits (bits_of_pos p) = Some p.
Proof. induction p as [p IH|p IH|]; simpl; by rewrite ?IH. Qed.

Lemma plain_decode_encode payload key algorithm now :
  (∀ e, PyDict.get "exp" (json_claims payload) = Some (CNum e) → now < e) →
  (∀ i, PyDict.get "iat" (json_claims payload) = Some (CNum i) → i ≤ now) →
  plain_decode (plain_encode payload key algorithm) key [algorithm] now
  = Decoded (json_claims payload).
Proof.
  intros Hexp Hiat. unfold plain_decode, plain_encode.
  rewrite pos_of_bits_of_pos. simpl. rewrite decode_encode.
  rewrite bool_decide_true by (split; [done|apply list_elem_of_here]).
  destruct (PyDict.get "exp" (json_claims payload)) as [[|e|]|] eqn:He;
    destruct (PyDict.get "iat" (json_claims payload)) as [[|i|]|] eqn:Hi;
    try done;
    rewrite ?(bool_decide_true (now < _)) by (by apply Hexp);
    rewrite ?(bool_decide_true (_ ≤ now)) by (by apply Hiat); done.
Qed.

Definition plain_jwt : JWT :=
  {| jwt_encode := plain_encode;
     jwt_decode := plain_decode;
     jwt_decode_encode := plain_decode_encode |}.

(** ** The mirror's commands touch the mirror only *)

Lemma redis_setex_calls key ttl v conn s r s' :
  redis_setex key ttl v conn s = (r, s') →
  docker_calls s' = docker_calls s ∧ terminals s' = terminals s.
Proof.
  unfold redis_setex, M_bind, answer, modify.
  intros Hr. by repeat (case_match; simplify_eq/=).
Qed.

Lemma redis_lpush_calls key e conn s r s' :
  redis_lpush key e conn s = (r, s') → docker_calls s' = docker_calls s.
Proof.
  unfold redis_lpush, M_bind, answer, modify.
  intros Hr. by repeat (case_match; simplify_eq/=).
Qed.

Lemma redis_expire_calls key ttl conn s r s' :
  redis_expire key ttl conn s = (r, s') → docker_calls s' = docker_calls s.
Proof.
  unfold redis_expire, M_bind, answer, modify, M_ret.
  intros Hr. by repeat (case_match; simplify_eq/=).
Qed.

Lemma redis_delete_calls key conn s r s' :
  redis_delete key conn s = (r, s') →
  docker_calls s' = docker_calls s ∧ terminals s' = terminals s.
Proof.
  unfold redis_delete, M_bind, answer, modify.
  intros Hr. by repeat (case_match; simplify_eq/=).
Qed.

(** The two keys of a terminal in the mirror differ. *)
Lemma commands_key_ne (terminal_id : string) :
  terminal_id +:+ ":commands" ≠ terminal_id.
Proof.
  induction terminal_id as [|c tid IH]; simpl; [done|].
  intros [= Heq]. by apply IH.
Qed.

(** * The claims *)

(** C6.  When the caller's identity is not the owner of the terminal,
    [execute_command] raises 403 "Access denied" and leaves the whole
    server state as it was: no call reaches the container engine and the
    terminal's record keeps every field. *)
Theorem execute_command_ownership_mismatch config s terminal_id terminal
    request token_data w :
  PyDict.get terminal_id (terminals s) = Some terminal →
  PyDict.get "agent_id" token_data ≠ Some (CStr (ti_agent_id terminal)) →
  execute_command config terminal_id request token_data w s
  = (Raise (HTTPException 403 "Access denied"), s).
Proof.
  intros Hget Hne. unfold execute_command, agent_mismatch.
  by rewrite Hget, bool_decide_true.
Qed.

Lemma execute_command_ownership_mismatch_witness :
  execute_command default_config "t1" (exec_request "echo hi") (token_of "a2")
    (world_exec [] 0) state_t1
  = (Raise (HTTPException 403 "Access denied"), state_t1).
Proof.
  apply (execute_command_ownership_mismatch default_config state_t1 "t1"
           terminal_t1).
  - reflexivity.
  - simpl. discriminate.
Defined.

(** C7.  The records [list_terminals] returns are exactly the stored
    records whose [agent_id] is the identity of the caller's token: no
    record of another identity is among them. *)
Theorem list_terminals_only_own token_data s t :
  t ∈ list_terminals token_data s
  ↔ t ∈ PyDict.values (terminals s)
    ∧ PyDict.get "agent_id" token_data = Some (CStr (ti_agent_id t)).
Proof.
  unfold list_terminals. rewrite list_elem_of_filter.
  split; intros [H1 H2]; by split.
Qed.

Lemma list_terminals_only_own_witness :
  terminal_t1 ∈ PyDict.values (terminals state_t1)
  ∧ PyDict.get "agent_id" (token_of "a1") = Some (CStr (ti_agent_id terminal_t1)).
Proof.
  apply (list_terminals_only_own (token_of "a1") state_t1 terminal_t1).
  vm_compute. constructor.
Defined.

(** C10.  When [execute_command] returns a result, its [error] is the
    empty string whatever the exit code; the engine was asked for the
    command with both stdout and stderr, and [output] is the decoded text
    of that one combined stream. *)
Theorem execute_command_error_empty config terminal_id request token_data
    w s r s' :
  execute_command config terminal_id request token_data w s = (Return r, s') →
  error r = ""
  ∧ ∃ terminal res,
      PyDict.get terminal_id (terminals s) = Some terminal
      ∧ xw_exec_run w = Done res
      ∧ exit_code r = er_exit_code res
      ∧ decode_output (er_output res) = Done (output r)
      ∧ docker_calls s'
        = (docker_calls s
           ++ [containers_get (ti_container_id terminal);
               container_exec_run (ti_container_id terminal)
                 (req_exec_command request) true true false
                 (timeout_or_30 (req_timeout request))])%list.
Proof.
  unfold execute_command, execute_command_in_terminal.
  destruct (PyDict.get terminal_id (terminals s)) as [t|]; [|done].
  destruct (agent_mismatch _ _); [done|].
  case_decide; [done|].
  unfold try_except, M_bind, docker, answer, M_ret.
  intros Hr. repeat (case_match; simplify_eq/=).
  split; [done|]. eexists _, _. split_and!; try done.
  erewrite redis_expire_calls, redis_lpush_calls by done.
  simpl. by rewrite <-app_assoc.
Qed.

Lemma execute_command_error_empty_witness :
  ∃ r s',
    execute_command default_config "t1" (exec_request "ls /nope")
      (token_of "a1")
      (world_exec ["o"%byte; "o"%byte; "p"%byte; "s"%byte] 2) state_t1
    = (Return r, s')
    ∧ exit_code r = 2 ∧ output r = "oops" ∧ error r = "".
Proof.
  eexists _, _. split; [vm_compute; reflexivity|].
  split; [reflexivity|]. split; [reflexivity|].
  exact (proj1 (execute_command_error_empty default_config "t1"
                  (exec_request "ls /nope") (token_of "a1")
                  (world_exec ["o"%byte; "o"%byte; "p"%byte; "s"%byte] 2)
                  state_t1 _ _ eq_refl)).
Defined.

(** C9.  [create_token] takes an [agent_id] and no credential, and always
    answers.  The token it answers with, presented when the clock has
    reached the number stored as its issue time and not yet its expiry, is
    accepted by [verify_token], and the payload [verify_token] returns
    carries the requested [agent_id]: the ownership checks of the routes
    take the bearer for that agent. *)
Theorem create_token_verifies `{JWT} config agent_id iat utcnow now :
  iat ≤ now →
  now < numeric_date (utcnow + timedelta_hours (JWT_EXPIRE_HOURS config)) →
  ∃ payload,
    verify_token config
      (access_token (create_token config agent_id iat utcnow)) now
    = Return payload
    ∧ PyDict.get "agent_id" payload = Some (CStr agent_id)
    ∧ agent_mismatch agent_id payload = false.
Proof.
  intros Hiat Hexp.
  unfold verify_token, create_token, create_access_token. simpl.
  rewrite jwt_decode_encode.
  - eexists. split; [done|]. split; [done|].
    unfold agent_mismatch. simpl. by rewrite bool_decide_false by (by intros []).
  - simpl. by intros e [= <-].
  - simpl. by intros i [= <-].
Qed.

Lemma create_token_verifies_witness :
  ∃ payload,
    verify_token (H := plain_jwt) default_config
      (access_token (create_token (H := plain_jwt) default_config "a1" 0 10))
      3600000000
    = Return payload
    ∧ PyDict.get "agent_id" payload = Some (CStr "a1")
    ∧ agent_mismatch "a1" payload = false.
Proof.
  apply (create_token_verifies (H := plain_jwt) default_config "a1" 0 10
           3600000000).
  - lia.
  - vm_compute. reflexivity.
Defined.

(** C2.  From the start of the server, whatever operations run and whatever
    the world answers, no agent has more running terminals than
    [MAX_TERMINALS_PER_AGENT]; every single operation keeps that bound; and
    a create for an agent that already has that many running terminals is
    rejected with 429 and changes nothing. *)
Theorem running_terminals_within_quota config :
  (∀ ops agent_id,
     (length (agent_running agent_id
                (terminals (run config ops initial_state)))
      ≤ MAX_TERMINALS_PER_AGENT config)%nat)
  ∧ (∀ o s,
       within_quota config (terminals s) →
       within_quota config (terminals (step config o s)))
  ∧ (∀ request token_data w s,
       agent_mismatch (req_agent_id request) token_data = false →
       (MAX_TERMINALS_PER_AGENT config
        ≤ length (agent_running (req_agent_id request) (terminals s)))%nat →
       create_terminal config request token_data w s
       = (Raise (HTTPException 429
                   ("Maximum terminals ("
                    +:+ pretty (MAX_TERMINALS_PER_AGENT config)
                    +:+ ") reached for agent")), s)).
Proof.
  split_and!.
  - intros ops agent_id. apply within_quota_run.
    intros a. simpl. lia.
  - apply within_quota_step.
  - intros request token_data w s Hown Hfull.
    unfold create_terminal, create_agent_terminal.
    by rewrite Hown, decide_True.
Qed.

Lemma running_terminals_within_quota_witness :
  create_terminal default_config (request_of "a1" 4) (token_of "a1")
    (world_create "t6" "c6" 0) state_full
  = (Raise (HTTPException 429 "Maximum terminals (5) reached for agent"),
     state_full).
Proof.
  apply (proj2 (proj2 (running_terminals_within_quota default_config))
           (request_of "a1" 4) (token_of "a1") (world_create "t6" "c6" 0)
           state_full).
  - reflexivity.
  - vm_compute. lia.
Defined.

(** C8.  Along any run in which every identifier drawn for a new terminal
    is fresh, a stored terminal stays stored under its identifier with the
    [agent_id] it was created with, and once its status is [destroyed] it
    is never [running] again; no other field changes either. *)
Theorem agent_id_fixed_status_one_way config ops s terminal_id t :
  fresh_run config ops s →
  PyDict.get terminal_id (terminals s) = Some t →
  ∃ t',
    PyDict.get terminal_id (terminals (run config ops s)) = Some t'
    ∧ ti_agent_id t' = ti_agent_id t
    ∧ (ti_status t = destroyed → ti_status t' = destroyed)
    ∧ (t' = t ∨ t' = with_status destroyed t).
Proof.
  intros Hfresh Ht.
  destruct (kept_run config ops s Hfresh terminal_id t Ht) as [Ht'|Ht'];
    eexists; (split; [exact Ht'|]); simpl; auto.
Qed.

Lemma agent_id_fixed_status_one_way_witness :
  ∃ t',
    PyDict.get "t1"
      (terminals
         (run default_config
            [op_delete_terminal "t1" (token_of "a1") world_destroy;
             creates "a2" "t2";
             op_execute_command "t1" (exec_request "id") (token_of "a1")
               (world_exec [] 0)]
            state_t1))
    = Some t'
    ∧ ti_agent_id t' = ti_agent_id terminal_t1
    ∧ (ti_status terminal_t1 = destroyed → ti_status t' = destroyed)
    ∧ (t' = terminal_t1 ∨ t' = with_status destroyed terminal_t1).
Proof.
  apply (agent_id_fixed_status_one_way default_config _ state_t1 "t1"
           terminal_t1).
  - simpl. unfold fresh_id. simpl. split_and!; try done.
    intros tid [= <-]. reflexivity.
  - reflexivity.
Defined.

(** C1 (the code at the failing input).  Agent ["a1"] destroys its terminal
    ["t1"] with success; the record is still stored, now [destroyed]; the
    owner's next [execute_command] is answered 400 "Terminal not running",
    and its next [get_logs] and [delete_terminal], the container being
    gone, 500: none is answered 404. *)
Lemma destroyed_terminal_still_found :
  destroy_terminal "t1" world_destroy state_t1
  = (Return true, state_t1_destroyed)
  ∧ PyDict.get "t1" (terminals state_t1_destroyed)
    = Some (with_status destroyed terminal_t1)
  ∧ execute_command default_config "t1" (exec_request "echo hi")
      (token_of "a1") (world_exec [] 0) state_t1_destroyed
    = (Raise (HTTPException 400 "Terminal not running"), state_t1_destroyed)
  ∧ (get_logs "t1" 100 (token_of "a1") world_logs_gone state_t1_destroyed).1
    = Raise (HTTPException 500 "Failed to get logs: No such container: c1")
  ∧ (delete_terminal "t1" (token_of "a1") world_destroy_gone
       state_t1_destroyed).1
    = Raise (HTTPException 500
               "Failed to destroy terminal: No such container: c1").
Proof. split_and!; vm_compute; reflexivity. Qed.

(** X12.  What a successful [destroy_terminal] leaves, whatever the state
    and the world: the record stays in [terminals] with status [destroyed] and both
    keys of the terminal are gone from the mirror.  A later
    [execute_command] on the identifier changes nothing and is answered
    403 to a caller that is not the owner and 400 "Terminal not running"
    to the owner; neither [get_logs] nor a second [delete_terminal] is
    answered 404. *)
Theorem destroy_terminal_keeps_record config terminal_id w s s' :
  destroy_terminal terminal_id w s = (Return true, s') →
  ∃ t,
    PyDict.get terminal_id (terminals s) = Some t
    ∧ PyDict.get terminal_id (terminals s') = Some (with_status destroyed t)
    ∧ redis s' !! ("terminal:" +:+ terminal_id) = None
    ∧ redis s' !! ("terminal:" +:+ terminal_id +:+ ":commands") = None
    ∧ (∀ request token_data xw,
         execute_command config terminal_id request token_data xw s'
         = (Raise (if agent_mismatch (ti_agent_id t) token_data
                   then HTTPException 403 "Access denied"
                   else HTTPException 400 "Terminal not running"), s'))
    ∧ (∀ lines token_data lw detail,
         (get_logs terminal_id lines token_data lw s').1
         ≠ Raise (HTTPException 404 detail))
    ∧ (∀ token_data dw detail,
         (delete_terminal terminal_id token_data dw s').1
         ≠ Raise (HTTPException 404 detail)).
Proof.
  unfold destroy_terminal.
  destruct (PyDict.get terminal_id (terminals s)) as [t|] eqn:Ht; [|done].
  unfold try_except, redis_delete.
  unfold M_bind, docker, answer, modify, M_ret.
  intros Hr. repeat (case_match; simplify_eq/=).
  assert (PyDict.get terminal_id (mark_destroyed terminal_id (terminals s))
          = Some (with_status destroyed t)) as Ht'.
  { rewrite get_mark_destroyed, decide_True, Ht; done. }
  exists t. split_and!; try done.
  - simpl. rewrite lookup_delete_ne, lookup_delete_eq; [done|].
    intros Heq. by apply String.app_inj, commands_key_ne in Heq.
  - simpl. by rewrite lookup_delete_eq.
  - intros request token_data xw.
    unfold execute_command, execute_command_in_terminal. simpl.
    rewrite Ht'. simpl. by destruct (agent_mismatch _ _).
  - intros lines token_data lw detail.
    unfold get_logs, get_terminal_logs, try_except. simpl. rewrite Ht'. simpl.
    destruct (agent_mismatch _ _); [done|]. by case_match; case_match.
  - intros token_data dw detail.
    unfold delete_terminal, destroy_terminal, try_except. simpl.
    rewrite Ht'. simpl.
    destruct (agent_mismatch _ _); [done|]. by case_match; case_match.
Qed.

(** C3 (the code at the failing input).  A create that asks for
    [timeout_hours = 1] at time 0 stores a record that expires four hours
    after its creation, not one: the requested timeout is never read. *)
Lemma create_terminal_timeout_ignored :
  PyDict.get "t1"
    (terminals
       (create_terminal default_config (request_of "a1" 1) (token_of "a1")
          (world_create "t1" "c1" 0) initial_state).2)
  = Some terminal_t1
  ∧ ti_expires_at terminal_t1 = ti_created_at terminal_t1 + timedelta_hours 4
  ∧ ti_expires_at terminal_t1 ≠ ti_created_at terminal_t1 + timedelta_hours 1.
Proof. split_and!; vm_compute; congruence. Qed.

(** The answer and the state of a create do not depend on the requested
    timeout at all. *)
Lemma create_terminal_timeout_irrelevant config agent_id command environment
    timeout_hours timeout_hours' token_data w s :
  create_terminal config
    {| req_agent_id := agent_id; req_command := command;
       req_environment := environment; req_timeout_hours := timeout_hours |}
    token_data w s
  = create_terminal config
      {| req_agent_id := agent_id; req_command := command;
         req_environment := environment; req_timeout_hours := timeout_hours' |}
      token_data w s.
Proof. reflexivity. Qed.

(** C4 (as stated, fails).  A caller that supplies [AGENT_ID] in the
    environment of its create request gets a container started with its
    own value, not with the agent's identifier. *)
Lemma injected_env_wins_counterexample :
  docker_calls
    (create_terminal default_config
       {| req_agent_id := "a1"; req_command := Some "bash";
          req_environment := Some [("AGENT_ID", "root")];
          req_timeout_hours := Some 4 |}
       (token_of "a1") (world_create "t1" "c1" 0) initial_state).2
  = [containers_run "minimal-agent-terminal:latest"
       (start_command "a1" "t1" "bash")
       [("AGENT_ID", "root"); ("TERMINAL_ID", "t1"); ("LOG_DIR", "/tmp/logs")]
       "/tmp/agent-logs/a1/t1" "mcp-terminal-t1"].
Proof. vm_compute. reflexivity. Qed.

(** C4 (amended).  A create that passes the ownership and limit checks
    starts the container with the injected variables [AGENT_ID],
    [TERMINAL_ID] and [LOG_DIR] updated by the caller's environment: for
    every key the caller supplies, reserved or not, the caller's value is
    the one the container gets, and the injected value is used for the
    keys the caller leaves out.  Nothing is rejected. *)
Theorem caller_environment_wins config request token_data w s :
  NoDup (PyDict.keys (default PyDict.empty (req_environment request))) →
  agent_mismatch (req_agent_id request) token_data = false →
  (length (agent_running (req_agent_id request) (terminals s))
   < MAX_TERMINALS_PER_AGENT config)%nat →
  cw_makedirs w = Done () →
  ∃ env_vars rest,
    docker_calls (create_terminal config request token_data w s).2
    = (docker_calls s
       ++ containers_run (TERMINAL_IMAGE config)
            (start_command (req_agent_id request) (cw_uuid4 w)
               (command_or_bash (req_command request)))
            env_vars
            (os_path_join (LOG_BASE_DIR config)
               [req_agent_id request; cw_uuid4 w])
            ("mcp-terminal-" +:+ cw_uuid4 w)
          :: rest)%list
    ∧ ∀ k,
        PyDict.get k env_vars
        = match PyDict.get k (default PyDict.empty (req_environment request)) with
          | Some v => Some v
          | None => PyDict.get k (injected_env (req_agent_id request) (cw_uuid4 w))
          end.
Proof.
  intros Hnd Hown Hq Hmk.
  exists (prepare_env (req_agent_id request) (cw_uuid4 w)
            (Some (default PyDict.empty (req_environment request)))), [].
  split.
  - unfold create_terminal, create_agent_terminal.
    rewrite Hown, decide_False, Hmk by lia.
    unfold try_except, redis_setex. unfold M_bind, docker, answer, modify, M_ret.
    by repeat (case_match; simplify_eq/=).
  - intros k. unfold prepare_env.
    destruct (default PyDict.empty (req_environment request)) as [|kv e] eqn:He;
      [done|].
    simpl PyDict.truthy. cbv iota. by rewrite get_update.
Qed.

Lemma caller_environment_wins_witness :
  ∃ env_vars rest,
    docker_calls
      (create_terminal default_config
         {| req_agent_id := "a1"; req_command := Some "bash";
            req_environment := Some [("AGENT_ID", "root")];
            req_timeout_hours := Some 4 |}
         (token_of "a1") (world_create "t1" "c1" 0) initial_state).2
    = containers_run "minimal-agent-terminal:latest"
        (start_command "a1" "t1" "bash") env_vars
        "/tmp/agent-logs/a1/t1" "mcp-terminal-t1" :: rest
    ∧ ∀ k,
        PyDict.get k env_vars
        = match PyDict.get k [("AGENT_ID", "root")] with
          | Some v => Some v
          | None => PyDict.get k (injected_env "a1" "t1")
          end.
Proof.
  apply (caller_environment_wins default_config
           {| req_agent_id := "a1"; req_command := Some "bash";
              req_environment := Some [("AGENT_ID", "root")];
              req_timeout_hours := Some 4 |}
           (token_of "a1") (world_create "t1" "c1" 0) initial_state).
  - simpl. apply NoDup_singleton.
  - reflexivity.
  - simpl. lia.
  - reflexivity.
Defined.

(** C5 (as stated, fails).  The container starts and the record is stored,
    the write to the mirror fails: the create is answered 500, and so is a
    destroy whose mirror delete fails; the records are stored or marked
    all the same. *)
Lemma mirror_failure_counterexample :
  create_agent_terminal default_config "a1" "bash" None
    (with_setex (Fails "Connection refused") (world_create "t1" "c1" 0))
    initial_state
  = (Raise (HTTPException 500
              "Failed to create terminal: Connection refused"),
     set_redis (λ _, ∅) state_t1)
  ∧ PyDict.get "t1" (terminals (set_redis (λ _, ∅) state_t1))
    = Some terminal_t1
  ∧ (destroy_terminal "t1"
       (with_deletes (Fails "Connection refused") (Done ()) world_destroy)
       state_t1).1
    = Raise (HTTPException 500
               "Failed to destroy terminal: Connection refused").
Proof. split_and!; vm_compute; reflexivity. Qed.

(** C5 (amended).  When everything but the mirror succeeds, a failing
    mirror write makes [create_agent_terminal] raise 500 "Failed to create
    terminal", and a failing mirror delete makes [destroy_terminal] raise
    500 "Failed to destroy terminal"; in both cases [terminals] and the
    calls made to the engine are what they are when the mirror answers. *)
Theorem mirror_failure_raises config :
  (∀ agent_id command environment w s msg info s_ok,
     cw_setex w = Fails msg →
     create_agent_terminal config agent_id command environment
       (with_setex (Done ()) w) s = (Return info, s_ok) →
     ∃ s',
       create_agent_terminal config agent_id command environment w s
       = (Raise (HTTPException 500 ("Failed to create terminal: " +:+ msg)),
          s')
       ∧ terminals s' = terminals s_ok
       ∧ docker_calls s' = docker_calls s_ok)
  ∧ (∀ terminal_id w s msg s_ok,
       dw_delete_terminal w = Fails msg
       ∨ (dw_delete_terminal w = Done () ∧ dw_delete_commands w = Fails msg) →
       destroy_terminal terminal_id (with_deletes (Done ()) (Done ()) w) s
       = (Return true, s_ok) →
       ∃ s',
         destroy_terminal terminal_id w s
         = (Raise (HTTPException 500
                     ("Failed to destroy terminal: " +:+ msg)), s')
         ∧ terminals s' = terminals s_ok
         ∧ docker_calls s' = docker_calls s_ok).
Proof.
  split.
  - intros agent_id command environment w s msg info s_ok Hsetex.
    unfold create_agent_terminal. simpl.
    case_decide; [done|]. destruct (cw_makedirs w); [|done].
    unfold try_except, redis_setex. unfold M_bind, docker, answer, modify, M_ret.
    rewrite Hsetex. simpl.
    destruct (cw_run w); simpl; [|done].
    intros [= _ <-]. by eexists.
  - intros terminal_id w s msg s_ok Hdel.
    unfold destroy_terminal.
    destruct (PyDict.get terminal_id (terminals s)); [|done].
    unfold try_except, redis_delete. unfold M_bind, docker, answer, modify, M_ret.
    simpl.
    destruct (dw_get w); simpl; [|done].
    destruct (dw_stop w); simpl; [|done].
    destruct (dw_remove w); simpl; [|done].
    intros [= <-].
    destruct Hdel as [->|[-> ->]]; simpl; by eexists.
Qed.

Lemma mirror_failure_raises_witness :
  ∃ s',
    create_agent_terminal default_config "a1" "bash" None
      (with_setex (Fails "Connection refused") (world_create "t1" "c1" 0))
      initial_state
    = (Raise (HTTPException 500
                ("Failed to create terminal: " +:+ "Connection refused")), s')
    ∧ terminals s' = terminals state_t1
    ∧ docker_calls s' = docker_calls state_t1.
Proof.
  apply (proj1 (mirror_failure_raises default_config) "a1" "bash" None
           (with_setex (Fails "Connection refused") (world_create "t1" "c1" 0))
           initial_state "Connection refused" terminal_t1 state_t1).
  - reflexivity.
  - vm_compute. reflexivity.
Defined.

(** * Further properties of the server *)

(** ** The error answers are exact *)

(** Unfolds a route and the [try] block under it into the cases of what
    the world answers. *)
Ltac route_cases :=
  unfold create_terminal, create_agent_terminal, execute_command,
    execute_command_in_terminal, get_logs, get_terminal_logs,
    delete_terminal, destroy_terminal, try_except, agent_mismatch, owned_by,
    prepare_env;
  unfold redis_setex, redis_delete;
  unfold M_bind, docker, answer, modify, M_ret;
  repeat (case_match; simplify_eq/=).

(** X1.  [execute_command], [get_logs] and [delete_terminal] answer 404
    exactly when the identifier is not a key of [terminals]: a stored
    terminal, destroyed or not, is never reported as not found. *)
Theorem not_found_iff_unknown config terminal_id s :
  (∀ request token_data w,
     raised_status
       (execute_command config terminal_id request token_data w s).1
     = Some 404
     ↔ PyDict.get terminal_id (terminals s) = None)
  ∧ (∀ lines token_data w,
       raised_status (get_logs terminal_id lines token_data w s).1 = Some 404
       ↔ PyDict.get terminal_id (terminals s) = None)
  ∧ (∀ token_data w,
       raised_status (delete_terminal terminal_id token_data w s).1 = Some 404
       ↔ PyDict.get terminal_id (terminals s) = None).
Proof.
  split_and!; intros; split; route_cases; done.
Qed.

(** X2.  A route answers 403 exactly when the token's [agent_id] is not
    the owner: of the stored terminal for [execute_command], [get_logs] and
    [delete_terminal], of the request for [create_terminal]. *)
Theorem forbidden_iff_not_owner config s :
  (∀ terminal_id request token_data w,
     raised_status
       (execute_command config terminal_id request token_data w s).1
     = Some 403
     ↔ ∃ t, PyDict.get terminal_id (terminals s) = Some t
            ∧ ¬ owned_by token_data t)
  ∧ (∀ terminal_id lines token_data w,
       raised_status (get_logs terminal_id lines token_data w s).1 = Some 403
       ↔ ∃ t, PyDict.get terminal_id (terminals s) = Some t
              ∧ ¬ owned_by token_data t)
  ∧ (∀ terminal_id token_data w,
       raised_status (delete_terminal terminal_id token_data w s).1 = Some 403
       ↔ ∃ t, PyDict.get terminal_id (terminals s) = Some t
              ∧ ¬ owned_by token_data t)
  ∧ (∀ request token_data w,
       raised_status (create_terminal config request token_data w s).1
       = Some 403
       ↔ PyDict.get "agent_id" token_data ≠ Some (CStr (req_agent_id request))).
Proof.
  split_and!; intros; split.
  all: try (intros (t & Ht & Hown); revert Ht Hown).
  all: route_cases; intros; simplify_eq.
  all: rewrite ?bool_decide_eq_true, ?bool_decide_eq_false in *.
  all: try done; try tauto; try (eexists; split; done).
Qed.

(** X3.  [execute_command] answers 400 exactly when the caller owns the
    terminal and the terminal is destroyed; [create_terminal] answers 429
    exactly when the token names the agent of the request and that agent
    already has [MAX_TERMINALS_PER_AGENT] running terminals or more. *)
Theorem refused_iff_destroyed_or_full config s :
  (∀ terminal_id request token_data w,
     raised_status
       (execute_command config terminal_id request token_data w s).1
     = Some 400
     ↔ ∃ t, PyDict.get terminal_id (terminals s) = Some t
            ∧ owned_by token_data t ∧ ti_status t = destroyed)
  ∧ (∀ request token_data w,
       raised_status (create_terminal config request token_data w s).1
       = Some 429
       ↔ PyDict.get "agent_id" token_data = Some (CStr (req_agent_id request))
         ∧ (MAX_TERMINALS_PER_AGENT config
            ≤ length (agent_running (req_agent_id request) (terminals s)))%nat).
Proof.
  split_and!; intros; split.
  all: try (intros (t & Ht & Hown & Hst); revert Ht Hown Hst).
  all: try (intros [Hown Hfull]; revert Hown Hfull).
  all: route_cases; intros; simplify_eq.
  all: rewrite ?bool_decide_eq_true, ?bool_decide_eq_false in *.
  all: try done; try tauto; try lia.
  all: try (exfalso; match goal with n : ¬ _ |- _ => apply n; congruence end).
  - eexists. split; [done|]. split; [by apply dec_stable|].
    by destruct (ti_status t).
  - split; [by apply dec_stable|lia].
Qed.

(** X4.  A request that is answered with an error other than 500 changes
    nothing: the dictionary of terminals, the mirror and the list of calls
    made to the engine are as before. *)
Theorem rejected_requests_change_nothing config s code :
  code ≠ 500 →
  (∀ request token_data w,
     raised_status (create_terminal config request token_data w s).1
     = Some code →
     (create_terminal config request token_data w s).2 = s)
  ∧ (∀ terminal_id request token_data w,
       raised_status
         (execute_command config terminal_id request token_data w s).1
       = Some code →
       (execute_command config terminal_id request token_data w s).2 = s)
  ∧ (∀ terminal_id lines token_data w,
       raised_status (get_logs terminal_id lines token_data w s).1
       = Some code →
       (get_logs terminal_id lines token_data w s).2 = s)
  ∧ (∀ terminal_id token_data w,
       raised_status (delete_terminal terminal_id token_data w s).1
       = Some code →
       (delete_terminal terminal_id token_data w s).2 = s).
Proof.
  intros Hcode. split_and!; intros *.
  all: route_cases; intros; simplify_eq; done.
Qed.

Lemma rejected_requests_change_nothing_witness :
  (create_terminal default_config (request_of "a1" 4) (token_of "a1")
     (world_create "t6" "c6" 0) state_full).2
  = state_full.
Proof.
  apply (proj1 (rejected_requests_change_nothing default_config state_full
                  429 ltac:(done))).
  vm_compute. reflexivity.
Defined.

(** ** Creating a terminal *)

(** X5.  [create_terminal] returns a response exactly when the token names
    the agent of the request, the agent is under its limit, and the log
    directory, the container and the mirror write all succeed. *)
Theorem create_terminal_succeeds_iff config request token_data w s :
  (∃ resp s', create_terminal config request token_data w s
              = (Return resp, s'))
  ↔ PyDict.get "agent_id" token_data = Some (CStr (req_agent_id request))
    ∧ (length (agent_running (req_agent_id request) (terminals s))
       < MAX_TERMINALS_PER_AGENT config)%nat
    ∧ cw_makedirs w = Done ()
    ∧ (∃ container_id, cw_run w = Done container_id)
    ∧ cw_setex w = Done ().
Proof.
  split.
  - intros (resp & s' & Hr). revert Hr.
    route_cases; intros; simplify_eq/=.
    all: rewrite bool_decide_eq_false in *.
    all: repeat match goal with u : () |- _ => destruct u end.
    all: split_and!; [by apply dec_stable|lia|done|by eexists|done].
  - intros (Hown & Hq & Hmk & [cid Hrun] & Hsetex).
    unfold create_terminal, create_agent_terminal, agent_mismatch.
    rewrite bool_decide_false, decide_False, Hmk by (by auto || lia).
    unfold try_except, redis_setex. unfold M_bind, docker, answer, modify, M_ret.
    rewrite Hrun, Hsetex. simpl. by eexists _, _.
Qed.

(** X6.  After a create that returned, the identifier of the response is
    the one drawn, and looking it up in [terminals] gives a running record
    of the requesting agent with the container the engine started, created
    at the first clock reading and expiring [TERMINAL_TIMEOUT_HOURS] after
    the second; the response repeats the record; the mirror holds the same
    record under ["terminal:<id>"] with that timeout in seconds; the
    record is listed for the caller; and the engine was called once. *)
Theorem create_terminal_stores_record config request token_data w s resp s' :
  create_terminal config request token_data w s = (Return resp, s') →
  ∃ info,
    PyDict.get (resp_terminal_id resp) (terminals s') = Some info
    ∧ resp_terminal_id resp = cw_uuid4 w
    ∧ ti_terminal_id info = cw_uuid4 w
    ∧ ti_agent_id info = req_agent_id request
    ∧ ti_status info = running
    ∧ cw_run w = Done (ti_container_id info)
    ∧ ti_command info = command_or_bash (req_command request)
    ∧ ti_created_at info = cw_utcnow_created w
    ∧ ti_expires_at info
      = cw_utcnow_expires w + timedelta_hours (TERMINAL_TIMEOUT_HOURS config)
    ∧ resp = {| resp_terminal_id := ti_terminal_id info;
                resp_agent_id := ti_agent_id info;
                resp_status := "running";
                resp_created_at := ti_created_at info;
                resp_container_id := ti_container_id info;
                resp_log_path := ti_log_dir info |}
    ∧ redis s' !! ("terminal:" +:+ cw_uuid4 w)
      = Some (RString (TERMINAL_TIMEOUT_HOURS config * 3600) info)
    ∧ info ∈ list_terminals token_data s'
    ∧ ∃ c, docker_calls s' = (docker_calls s ++ [c])%list.
Proof.
  route_cases; intros; simplify_eq/=.
  all: rewrite bool_decide_eq_false in *.
  all: eexists; split_and!; try done.
  all: try apply get_setitem_eq; try apply lookup_insert_eq; try by eexists.
  all: unfold list_terminals; apply list_elem_of_filter; split;
    [simpl; symmetry; by apply dec_stable
    |eapply get_Some_elem_of; simpl; apply get_setitem_eq].
Qed.

Lemma create_terminal_stores_record_witness :
  ∃ info,
    PyDict.get "t1" (terminals state_t1) = Some info
    ∧ ti_agent_id info = "a1" ∧ ti_status info = running.
Proof.
  destruct (create_terminal_stores_record default_config
              (request_of "a1" 4) (token_of "a1") (world_create "t1" "c1" 0)
              initial_state _ _ eq_refl)
    as (info & Hget & _ & _ & Hag & Hst & _).
  exists info. split_and!; [exact Hget|exact Hag|exact Hst].
Defined.

(** X7.  A create that raises never writes the mirror, and it leaves
    [terminals] as it was unless the container was started and the mirror
    write failed: that is the one failure that leaves a record. *)
Theorem create_terminal_failure config request token_data w s e s' :
  create_terminal config request token_data w s = (Raise e, s') →
  redis s' = redis s
  ∧ (terminals s' = terminals s
     ∨ ∃ msg container_id,
         cw_setex w = Fails msg ∧ cw_run w = Done container_id
         ∧ e = HTTPException 500 ("Failed to create terminal: " +:+ msg)
         ∧ PyDict.get (cw_uuid4 w) (terminals s') ≠ None).
Proof.
  route_cases; intros; simplify_eq/=; split; try done.
  all: try (by left).
  all: right; eexists _, _; split_and!; try done; by rewrite get_setitem_eq.
Qed.

Lemma create_terminal_failure_witness :
  redis (create_terminal default_config (request_of "a1" 4) (token_of "a1")
           (world_create "t6" "c6" 0) state_full).2
  = redis state_full.
Proof.
  eapply (proj1 (create_terminal_failure default_config (request_of "a1" 4)
                   (token_of "a1") (world_create "t6" "c6" 0) state_full
                   _ _ eq_refl)).
Defined.

(** ** Running a command *)

Lemma redis_lpush_done key e conn s u s1 :
  redis_lpush key e conn s = (Done u, s1) →
  ∃ ttl old,
    (redis s !! key = None ∧ ttl = None ∧ old = []
     ∨ redis s !! key = Some (RList ttl old))
    ∧ s1 = set_redis (<[key := RList ttl (e :: old)]>) s.
Proof.
  unfold redis_lpush. unfold M_bind, answer, modify.
  intros Hr. repeat (case_match; simplify_eq/=); eexists _, _; eauto.
Qed.

Lemma redis_expire_list_done key ttl conn s u s' ttl0 l :
  redis_expire key ttl conn s = (Done u, s') →
  redis s !! key = Some (RList ttl0 l) →
  s' = set_redis (<[key := RList (Some ttl) l]>) s.
Proof.
  unfold redis_expire. unfold M_bind, answer, modify, M_ret.
  intros Hr Hk. by repeat (case_match; simplify_eq/=).
Qed.

(** X8.  A command that returns leaves [terminals] untouched and puts one
    entry at the head of the terminal's command list in the mirror: the
    entry names the terminal, its owner, the command, the exit code and
    the time between the two clock readings around the command.  The
    entries pushed before stay behind it, none is dropped, the list gets
    the terminal timeout, and no other key of the mirror changes. *)
Theorem execute_command_logs_entry config terminal_id request token_data
    w s r s' :
  execute_command config terminal_id request token_data w s = (Return r, s') →
  terminals s' = terminals s
  ∧ ∃ t res,
      PyDict.get terminal_id (terminals s) = Some t
      ∧ xw_exec_run w = Done res
      ∧ execution_time r = xw_now_end w - xw_now_start w
      ∧ redis s' !! ("terminal:" +:+ terminal_id +:+ ":commands")
        = Some (RList (Some (TERMINAL_TIMEOUT_HOURS config * 3600))
                  ({| le_timestamp := xw_utcnow w;
                      le_terminal_id := terminal_id;
                      le_agent_id := ti_agent_id t;
                      le_command := req_exec_command request;
                      le_exit_code := er_exit_code res;
                      le_execution_time := xw_now_end w - xw_now_start w |}
                   :: match redis s
                            !! ("terminal:" +:+ terminal_id +:+ ":commands") with
                      | Some (RList _ old) => old
                      | _ => []
                      end))
      ∧ ∀ key, key ≠ "terminal:" +:+ terminal_id +:+ ":commands" →
               redis s' !! key = redis s !! key.
Proof.
  route_cases; intros; simplify_eq/=.
  all: match goal with H : redis_lpush _ _ _ _ = _ |- _ =>
    apply redis_lpush_done in H as (ttl0 & old0 & Hold & ->) end.
  all: match goal with H : redis_expire _ _ _ _ = _ |- _ =>
    eapply redis_expire_list_done in H as ->;
      [|simpl; apply lookup_insert_eq] end.
  all: simpl; split; [done|]; eexists _, _; split_and!; try done.
  all: rewrite insert_insert_eq.
  all: try (rewrite lookup_insert_eq; simpl in Hold;
            destruct Hold as [(Hn & -> & ->)|Hl]; by simplify_eq).
  all: intros key Hkey; by rewrite lookup_insert_ne.
Qed.

Lemma execute_command_logs_entry_witness :
  terminals
    (execute_command default_config "t1" (exec_request "id") (token_of "a1")
       (world_exec [] 0) state_t1).2
  = terminals state_t1.
Proof.
  eapply (proj1 (execute_command_logs_entry default_config "t1"
                   (exec_request "id") (token_of "a1") (world_exec [] 0)
                   state_t1 _ _ eq_refl)).
Defined.

(** X9.  Running a command, reading logs, listing, the health check and
    the log stream never write [terminals], whatever the world answers; of
    these only a command writes the mirror. *)
Theorem read_operations_write_nothing config o s :
  (writes_terminals o = false → terminals (step config o s) = terminals s)
  ∧ (writes_mirror o = false → redis (step config o s) = redis s).
Proof.
  split.
  - destruct o; try done; intros _; simpl.
    + unfold execute_command.
      destruct (PyDict.get _ _); [|done]. destruct (agent_mismatch _ _); [done|].
      unfold execute_command_in_terminal.
      destruct (PyDict.get _ _); [|done]. case_decide; [done|].
      apply (preserves_try_except (λ d, d = terminals s)); [|done].
      preserves_steps.
    + route_cases; done.
    + apply terminal_stream_terminals.
  - destruct o; try done; intros _; simpl.
    + route_cases; done.
    + unfold terminal_stream, M_bind, docker.
      repeat case_match; simplify_eq/=; done.
Qed.

Lemma read_operations_write_nothing_witness :
  terminals
    (step default_config
       (op_execute_command "t1" (exec_request "id") (token_of "a1")
          (world_exec [] 0)) state_t1)
  = terminals state_t1.
Proof.
  apply (proj1 (read_operations_write_nothing default_config
                  (op_execute_command "t1" (exec_request "id") (token_of "a1")
                     (world_exec [] 0)) state_t1)).
  reflexivity.
Defined.

(** ** Destroying a terminal *)

(** X10.  When the engine fails to get, stop or remove the container,
    [destroy_terminal] raises 500 and neither [terminals] nor the mirror
    changes: the terminal keeps its status and can be destroyed again. *)
Theorem destroy_terminal_engine_failure terminal_id w s t :
  PyDict.get terminal_id (terminals s) = Some t →
  ¬ engine_destroys w →
  ∃ detail s',
    destroy_terminal terminal_id w s = (Raise (HTTPException 500 detail), s')
    ∧ terminals s' = terminals s
    ∧ redis s' = redis s.
Proof.
  intros Ht Hw. unfold engine_destroys in Hw.
  unfold destroy_terminal. rewrite Ht.
  unfold try_except, redis_delete. unfold M_bind, docker, answer, modify, M_ret.
  destruct (dw_get w) as [[]|]; simpl; [|by eexists _, _].
  destruct (dw_stop w) as [[]|]; simpl; [|by eexists _, _].
  destruct (dw_remove w) as [[]|]; simpl; [|by eexists _, _].
  by destruct Hw.
Qed.

Lemma destroy_terminal_engine_failure_witness :
  ∃ detail s',
    destroy_terminal "t1" world_destroy_gone state_t1
    = (Raise (HTTPException 500 detail), s')
    ∧ terminals s' = terminals state_t1
    ∧ redis s' = redis state_t1.
Proof.
  apply (destroy_terminal_engine_failure "t1" world_destroy_gone state_t1
           terminal_t1).
  - reflexivity.
  - intros [Hget _]. discriminate Hget.
Defined.

(** X11.  When the engine stops and removes the container, the terminal is
    marked destroyed whatever the mirror answers.  If it was running, its
    owner then has one running terminal less, the health count is one
    less, and the counts of the other agents are as before. *)
Theorem destroy_terminal_frees_slot terminal_id w s t :
  PyDict.get terminal_id (terminals s) = Some t →
  engine_destroys w →
  let s' := (destroy_terminal terminal_id w s).2 in
  PyDict.get terminal_id (terminals s') = Some (with_status destroyed t)
  ∧ (ti_status t = running →
     (length (agent_running (ti_agent_id t) (terminals s')) + 1
      = length (agent_running (ti_agent_id t) (terminals s)))%nat
     ∧ (health_check s' + 1 = health_check s)%nat
     ∧ ∀ agent_id, agent_id ≠ ti_agent_id t →
         length (agent_running agent_id (terminals s'))
         = length (agent_running agent_id (terminals s))).
Proof.
  intros Ht (Hget & Hstop & Hrm). simpl. unfold health_check.
  assert (terminals (destroy_terminal terminal_id w s).2
          = PyDict.setitem terminal_id (with_status destroyed t) (terminals s))
    as ->.
  { unfold destroy_terminal. rewrite Ht.
    unfold try_except, redis_delete. unfold M_bind, docker, answer, modify, M_ret.
    rewrite Hget, Hstop, Hrm. simpl.
    assert (mark_destroyed terminal_id (terminals s)
            = PyDict.setitem terminal_id (with_status destroyed t) (terminals s))
      as Hmark by (unfold mark_destroyed; by rewrite Ht).
    repeat case_match; simplify_eq/=; done. }
  split; [apply get_setitem_eq|]. intros Hst. split_and!.
  - pose proof (filter_setitem_replace
                  (λ x, ti_agent_id x = ti_agent_id t ∧ ti_status x = running)
                  (terminals s) terminal_id (with_status destroyed t) t Ht) as Hc.
    rewrite decide_True in Hc by done.
    rewrite decide_False in Hc by (simpl; by intros [_ ?]).
    rewrite Nat.add_0_r in Hc. exact Hc.
  - pose proof (filter_setitem_replace (λ x, ti_status x = running)
                  (terminals s) terminal_id (with_status destroyed t) t Ht) as Hc.
    rewrite decide_True, decide_False in Hc by done.
    rewrite Nat.add_0_r in Hc. exact Hc.
  - intros agent_id Hne.
    pose proof (filter_setitem_replace
                  (λ x, ti_agent_id x = agent_id ∧ ti_status x = running)
                  (terminals s) terminal_id (with_status destroyed t) t Ht) as Hc.
    rewrite !decide_False in Hc by (simpl; by intros [? _]).
    rewrite !Nat.add_0_r in Hc. exact Hc.
Qed.

Lemma destroy_terminal_frees_slot_witness :
  PyDict.get "t1" (terminals (destroy_terminal "t1" world_destroy state_t1).2)
  = Some (with_status destroyed terminal_t1).
Proof.
  apply (destroy_terminal_frees_slot "t1" world_destroy state_t1 terminal_t1).
  - reflexivity.
  - by split_and!.
Defined.

Lemma destroy_terminal_keeps_record_witness :
  ∃ t,
    PyDict.get "t1" (terminals state_t1) = Some t
    ∧ PyDict.get "t1" (terminals state_t1_destroyed)
      = Some (with_status destroyed t).
Proof.
  destruct (destroy_terminal_keeps_record default_config "t1" world_destroy
              state_t1 state_t1_destroyed eq_refl)
    as (t & H1 & H2 & _).
  exists t. split; [exact H1|exact H2].
Defined.

(** ** The cleanup round *)

(** What [destroy_terminal] does to [terminals] depends on the engine
    alone. *)
Lemma destroy_terminal_terminals terminal_id w s :
  terminals (destroy_terminal terminal_id w s).2
  = if decide (engine_destroys w) then mark_destroyed terminal_id (terminals s)
    else terminals s.
Proof.
  destruct (decide (engine_destroys w)) as [(Hget & Hstop & Hrm)|Hko];
    unfold destroy_terminal;
    destruct (PyDict.get terminal_id (terminals s)) as [t|] eqn:Ht;
    try done; try (unfold mark_destroyed; by rewrite Ht);
    unfold try_except, redis_delete;
    unfold M_bind, docker, answer, modify, M_ret.
  - rewrite Hget, Hstop, Hrm. simpl.
    destruct (dw_delete_terminal w); simpl;
      [destruct (dw_delete_commands w)|]; done.
  - destruct (dw_get w) as [[]|] eqn:Hget; simpl; [|done].
    destruct (dw_stop w) as [[]|] eqn:Hstop; simpl; [|done].
    destruct (dw_remove w) as [[]|] eqn:Hrm; simpl; [|done].
    by destruct Hko.
Qed.

Lemma with_status_idemp st t :
  with_status st (with_status st t) = with_status st t.
Proof. done. Qed.

(** The record found under an identifier after destroying, in turn, the
    terminals [tids]. *)
Lemma destroy_all_get (w : string → destroy_world) tids s terminal_id :
  PyDict.get terminal_id
    (terminals
       (foldl (λ s' tid, (destroy_terminal tid (w tid) s').2) s tids))
  = if decide (terminal_id ∈ tids ∧ engine_destroys (w terminal_id))
    then with_status destroyed <$> PyDict.get terminal_id (terminals s)
    else PyDict.get terminal_id (terminals s).
Proof.
  revert s. induction tids as [|tid tids IH]; intros s; cbn [foldl].
  - rewrite decide_False; [done|]. intros [Hin _]. by apply elem_of_nil in Hin.
  - rewrite IH, destroy_terminal_terminals.
    assert (engine_destroys (w tid) ∨ ¬ engine_destroys (w tid)) as [Hok|Hko]
      by (destruct (decide (engine_destroys (w tid))); auto).
    + rewrite (decide_True (P := engine_destroys (w tid))) by done.
      rewrite get_mark_destroyed.
      destruct (decide (tid = terminal_id)) as [->|Hne].
      * rewrite (decide_True (P := terminal_id ∈ terminal_id :: tids ∧ _))
          by (split; [apply list_elem_of_here|done]).
        case_decide; [|done].
        by destruct (PyDict.get terminal_id (terminals s)).
      * apply decide_ext. rewrite elem_of_cons.
        split; [intros [? ?]; auto|intros [[?|?] ?]; [congruence|auto]].
    + rewrite (decide_False (P := engine_destroys (w tid))) by done.
      apply decide_ext. rewrite elem_of_cons.
      split; [intros [? ?]; auto|].
      intros [[->|?] ?]; [done|auto].
Qed.

(** In a dictionary, the record found under a key is the only entry with
    that key. *)
Lemma get_Some_iff_elem_of {V} (d : dict V) k v :
  NoDup (PyDict.keys d) → PyDict.get k d = Some v ↔ (k, v) ∈ d.
Proof.
  unfold PyDict.keys. induction d as [|[k' v'] d IH]; csimpl.
  - intros _. split; [done|]. intros Hin. by apply elem_of_nil in Hin.
  - rewrite NoDup_cons, elem_of_cons. intros [Hk' Hnd].
    destruct (decide (k' = k)) as [->|Hne].
    + split; [intros [= ->]; by left|].
      intros [[= ->]|Hin]; [done|].
      destruct Hk'. apply list_elem_of_fmap. by exists (k, v).
    + rewrite IH by done. split; [by right|].
      intros [[= ? ?]|?]; [congruence|done].
Qed.

(** X13.  One round of the cleanup, on a dictionary [terminals] with one
    entry per key.  A terminal that is running and whose expiry lies
    strictly before the clock reading is marked destroyed when the engine
    stops and removes its container, whatever happens to the other
    terminals of the round; when the engine fails for it, its record is
    left as it was, to be collected again.  A terminal that is destroyed,
    or whose expiry is the clock reading or later, is left as it was. *)
Theorem cleanup_round_effect now w s terminal_id t :
  NoDup (PyDict.keys (terminals s)) →
  PyDict.get terminal_id (terminals s) = Some t →
  PyDict.get terminal_id (terminals (cleanup_expired_terminals now w s))
  = Some (if decide (ti_status t = running ∧ ti_expires_at t < now
                     ∧ engine_destroys (w terminal_id))
          then with_status destroyed t else t).
Proof.
  intros Hnd Ht. unfold cleanup_expired_terminals.
  rewrite destroy_all_get, Ht. simpl.
  assert (terminal_id ∈ expired_terminals now (terminals s)
          ↔ ti_status t = running ∧ ti_expires_at t < now) as Hexp.
  { unfold expired_terminals. rewrite list_elem_of_fmap. split.
    - intros ([k v] & -> & Hin). apply list_elem_of_filter in Hin as [Hp Hin].
      apply get_Some_iff_elem_of in Hin; [|done]. simpl in *. by simplify_eq.
    - intros Hp. exists (terminal_id, t). split; [done|].
      apply list_elem_of_filter. split; [done|].
      by apply get_Some_iff_elem_of. }
  rewrite (decide_ext _ (ti_status t = running ∧ ti_expires_at t < now
                          ∧ engine_destroys (w terminal_id)))
    by (rewrite Hexp; by rewrite (assoc and)).
  by case_decide.
Qed.

Lemma cleanup_round_effect_witness :
  PyDict.get "t1"
    (terminals
       (cleanup_expired_terminals 14400000001 (λ _, world_destroy) state_t1))
  = Some (with_status destroyed terminal_t1).
Proof.
  apply (cleanup_round_effect 14400000001 (λ _, world_destroy) state_t1 "t1"
           terminal_t1).
  - vm_compute. apply NoDup_singleton.
  - reflexivity.
Defined.

(** ** The log stream *)

(** X14.  [terminal_stream] asks the engine for a log stream, and relays a
    line, only when a non-empty token was given, the token decoded, the
    terminal is stored and the token's [agent_id] is its owner. *)
Theorem terminal_stream_owner_only terminal_id token decoded w s :
  (∃ line, send_text line ∈ (terminal_stream terminal_id token decoded w s).1)
  ∨ docker_calls (terminal_stream terminal_id token decoded w s).2
    ≠ docker_calls s →
  ∃ tok payload t,
    token = Some tok ∧ tok ≠ ""
    ∧ decoded = Decoded payload
    ∧ PyDict.get terminal_id (terminals s) = Some t
    ∧ owned_by payload t.
Proof.
  unfold terminal_stream, agent_mismatch, owned_by.
  unfold M_bind, docker.
  repeat (case_match; simplify_eq/=).
  all: rewrite ?bool_decide_eq_false in *.
  all: try (intros [[line Hin]|Hc]; [|done];
            repeat (apply elem_of_cons in Hin as [Hin|Hin]; [done|]);
            by apply elem_of_nil in Hin).
  all: intros _; eexists _, _, _; split_and!; try done; by apply dec_stable.
Qed.

Lemma terminal_stream_owner_only_witness :
  ∃ tok payload t,
    Some "bearer" = Some tok ∧ tok ≠ ""
    ∧ Decoded (token_of "a1") = Decoded payload
    ∧ PyDict.get "t1" (terminals state_t1) = Some t
    ∧ owned_by payload t.
Proof.
  apply (terminal_stream_owner_only "t1" (Some "bearer")
           (Decoded (token_of "a1"))
           {| sw_get := Done (); sw_lines := Done [["o"%byte; "k"%byte]] |}
           state_t1).
  left. exists "ok". vm_compute. constructor.
Defined.

(** The lines [relay] sends are the decoded lines of a prefix of its input,
    in order; the prefix ends at the first line that is not UTF-8. *)
Lemma relay_prefix lines :
  ∃ k,
    relay lines
    = (λ l, send_text (String.string_of_list_byte l)) <$> take k lines
    ∧ Forall (λ l, utf8_valid (byte_val <$> l) = true) (take k lines)
    ∧ ∀ l, lines !! k = Some l → utf8_valid (byte_val <$> l) = false.
Proof.
  induction lines as [|l lines (k & Hr & Hv & Hstop)]; simpl.
  - exists 0%nat. by split_and!.
  - unfold decode_utf8. destruct (utf8_valid (byte_val <$> l)) eqn:Hl.
    + exists (S k). simpl. rewrite Hr. split_and!; [done|by constructor|done].
    + exists 0%nat. simpl. split_and!; [done|constructor|].
      by intros l' [= <-].
Qed.

(** X15.  For the owner of a stored terminal, when the engine answers,
    [terminal_stream] makes two engine calls and sends the lines of the
    engine's stream decoded, in their order, without gap or repetition,
    up to the first line that is not UTF-8 (or to the end); it closes
    nothing itself and leaves [terminals] and the mirror as they were. *)
Theorem terminal_stream_relays_in_order terminal_id tok payload w s t lines :
  tok ≠ "" →
  PyDict.get terminal_id (terminals s) = Some t →
  owned_by payload t →
  sw_get w = Done () →
  sw_lines w = Done lines →
  ∃ k,
    terminal_stream terminal_id (Some tok) (Decoded payload) w s
    = ((λ l, send_text (String.string_of_list_byte l)) <$> take k lines,
       call_docker (container_logs_stream (ti_container_id t))
         (call_docker (containers_get (ti_container_id t)) s))
    ∧ Forall (λ l, utf8_valid (byte_val <$> l) = true) (take k lines)
    ∧ ∀ l, lines !! k = Some l → utf8_valid (byte_val <$> l) = false.
Proof.
  intros Htok Ht Hown Hget Hlines.
  destruct (relay_prefix lines) as (k & Hr & Hv & Hstop).
  exists k. split_and!; [|done..].
  unfold terminal_stream, agent_mismatch. rewrite Ht.
  rewrite bool_decide_false by (by intros []).
  unfold M_bind, docker. rewrite Hget, Hlines, Hr.
  by destruct tok.
Qed.

Lemma terminal_stream_relays_in_order_witness :
  ∃ k,
    terminal_stream "t1" (Some "bearer") (Decoded (token_of "a1"))
      {| sw_get := Done ();
         sw_lines := Done [["o"%byte; "k"%byte]; [Byte.xff]; ["n"%byte]] |}
      state_t1
    = ((λ l, send_text (String.string_of_list_byte l))
         <$> take k [["o"%byte; "k"%byte]; [Byte.xff]; ["n"%byte]],
       call_docker (container_logs_stream (ti_container_id terminal_t1))
         (call_docker (containers_get (ti_container_id terminal_t1)) state_t1))
    ∧ Forall (λ l, utf8_valid (byte_val <$> l) = true)
        (take k [["o"%byte; "k"%byte]; [Byte.xff]; ["n"%byte]])
    ∧ ∀ l, [["o"%byte; "k"%byte]; [Byte.xff]; ["n"%byte]] !! k = Some l →
           utf8_valid (byte_val <$> l) = false.
Proof.
  apply (terminal_stream_relays_in_order "t1" "bearer" (token_of "a1")
           {| sw_get := Done ();
              sw_lines := Done [["o"%byte; "k"%byte]; [Byte.xff];
                                ["n"%byte]] |}
           state_t1 terminal_t1); done.
Defined.

(** ** The mirror against the dictionary *)

Section Keeps.

Variable J : state → Prop.
Hypothesis J_call_docker : ∀ c s, J s → J (call_docker c s).

Lemma keeps_ret {A} (a : A) : keeps J (M_ret a).
Proof. by intros s. Qed.

Lemma keeps_answer {A} (o : ext A) : keeps J (answer o).
Proof. by intros s. Qed.

Lemma keeps_docker {A} c (o : ext A) : keeps J (docker c o).
Proof. intros s Hs. by apply J_call_docker. Qed.

Lemma keeps_bind {A B} (m : M A) (k : A → M B) :
  keeps J m → (∀ a, keeps J (k a)) → keeps J (M_bind m k).
Proof.
  intros Hm Hk s Hs. unfold M_bind. specialize (Hm s Hs).
  destruct (m s) as [[a|msg] s']; simpl in *; [by apply Hk | done].
Qed.

Lemma keeps_modify f : (∀ s, J s → J (f s)) → keeps J (modify f).
Proof. intros Hf s Hs. by apply Hf. Qed.

Lemma keeps_try_except {A} (m : M A) h s :
  keeps J m → J s → J (try_except m h s).2.
Proof.
  intros Hm Hs. unfold try_except. specialize (Hm s Hs).
  by destruct (m s) as [[a|msg] s'].
Qed.

End Keeps.

Section MirrorSound.

Variable config : Config.

Lemma mirror_sound_call_docker c s :
  mirror_sound config s → mirror_sound config (call_docker c s).
Proof. done. Qed.

Lemma mirror_sound_delete key s :
  mirror_sound config s → mirror_sound config (set_redis (delete key) s).
Proof.
  intros Hs k ttl v. simpl. rewrite lookup_delete_Some. intros [_ Hk].
  by apply Hs.
Qed.

Lemma mirror_sound_insert_list key ttl l s :
  mirror_sound config s →
  mirror_sound config (set_redis (<[key := RList ttl l]>) s).
Proof.
  intros Hs k ttl' v. simpl. rewrite lookup_insert_Some.
  intros [[_ [=]]|[_ Hk]]. by apply Hs.
Qed.

Lemma mirror_sound_mark terminal_id s :
  mirror_sound config s →
  mirror_sound config (set_terminals (mark_destroyed terminal_id) s).
Proof.
  intros Hs k ttl v Hk. destruct (Hs k ttl v Hk) as (? & ? & ? & [t Ht]).
  split_and!; try done. simpl. rewrite get_mark_destroyed, Ht.
  by case_decide.
Qed.

Lemma mirror_sound_setitem terminal_id info s :
  mirror_sound config s →
  mirror_sound config (set_terminals (PyDict.setitem terminal_id info) s).
Proof.
  intros Hs k ttl v Hk. destruct (Hs k ttl v Hk) as (? & ? & ? & [t Ht]).
  split_and!; try done. simpl. rewrite get_setitem, Ht. by case_decide.
Qed.

Lemma keeps_mirror_sound_lpush key e conn :
  keeps (mirror_sound config) (redis_lpush key e conn).
Proof.
  apply keeps_bind; [apply keeps_answer|intros _]. intros s Hs.
  repeat case_match; simpl; try done; by apply mirror_sound_insert_list.
Qed.

Lemma keeps_mirror_sound_expire key conn :
  keeps (mirror_sound config)
    (redis_expire key (TERMINAL_TIMEOUT_HOURS config * 3600) conn).
Proof.
  apply keeps_bind; [apply keeps_answer|intros _]. intros s Hs.
  destruct (redis s !! key) as [[ttl v|ttl l]|] eqn:Hkey; simpl; try done.
  - intros k ttl' v'. simpl. rewrite lookup_insert_Some.
    intros [[<- [= <- <-]]|[_ Hk]]; [|by apply Hs].
    destruct (Hs key ttl v Hkey) as (? & ? & ? & ?). done.
  - by apply mirror_sound_insert_list.
Qed.

Lemma keeps_mirror_sound_delete key conn :
  keeps (mirror_sound config) (redis_delete key conn).
Proof.
  apply keeps_bind; [apply keeps_answer|intros _].
  apply keeps_modify. intros s. apply mirror_sound_delete.
Qed.

Lemma mirror_sound_destroy terminal_id w s :
  mirror_sound config s →
  mirror_sound config (destroy_terminal terminal_id w s).2.
Proof.
  intros Hs. unfold destroy_terminal.
  destruct (PyDict.get terminal_id (terminals s)); [|done].
  apply keeps_try_except; [|done].
  repeat first
    [ apply keeps_mirror_sound_delete
    | apply keeps_docker; apply mirror_sound_call_docker
    | apply keeps_ret
    | apply keeps_modify; intros ?; apply mirror_sound_mark
    | apply keeps_bind; [|intros ?] ].
Qed.

Lemma mirror_sound_step o s :
  mirror_sound config s → mirror_sound config (step config o s).
Proof.
  intros Hs. destruct o; simpl; try done.
  - unfold create_terminal. destruct (agent_mismatch _ _); [done|].
    assert (mirror_sound config
              (create_agent_terminal config (req_agent_id request)
                 (command_or_bash (req_command request))
                 (Some (default PyDict.empty (req_environment request))) w s).2)
      as Hc.
    { unfold create_agent_terminal. case_decide; [done|].
      destruct (cw_makedirs w); [|done].
      unfold try_except, redis_setex.
      unfold M_bind, docker, answer, modify, M_ret.
      destruct (cw_run w) as [cid|]; simpl; [|done].
      assert (∀ k ttl v, redis s !! k = Some (RString ttl v) →
                k = "terminal:" +:+ ti_terminal_id v
                ∧ ttl = TERMINAL_TIMEOUT_HOURS config * 3600
                ∧ ti_status v = running
                ∧ is_Some (PyDict.get (ti_terminal_id v)
                             (PyDict.setitem (cw_uuid4 w)
                                {| ti_terminal_id := cw_uuid4 w;
                                   ti_agent_id := req_agent_id request;
                                   ti_container_id := cid;
                                   ti_status := running;
                                   ti_created_at := cw_utcnow_created w;
                                   ti_log_dir :=
                                     os_path_join (LOG_BASE_DIR config)
                                       [req_agent_id request; cw_uuid4 w];
                                   ti_command :=
                                     command_or_bash (req_command request);
                                   ti_expires_at :=
                                     cw_utcnow_expires w
                                     + timedelta_hours
                                         (TERMINAL_TIMEOUT_HOURS config) |}
                                (terminals s)))) as Hold.
      { intros k ttl v Hk. destruct (Hs k ttl v Hk) as (? & ? & ? & [t Ht]).
        split_and!; try done. rewrite get_setitem, Ht. by case_decide. }
      destruct (cw_setex w); simpl; [|exact Hold].
      intros k ttl v. simpl. rewrite lookup_insert_Some.
      intros [[<- [= <- <-]]|[_ Hk]]; [|by apply Hold].
      split_and!; try done. simpl. rewrite get_setitem_eq. by eexists. }
    by destruct (create_agent_terminal _ _ _ _ _ _) as [[?|?] ?].
  - unfold execute_command.
    destruct (PyDict.get _ _); [|done]. destruct (agent_mismatch _ _); [done|].
    unfold execute_command_in_terminal.
    destruct (PyDict.get _ _); [|done]. case_decide; [done|].
    apply keeps_try_except; [|done].
    repeat first
      [ apply keeps_mirror_sound_lpush
      | apply keeps_mirror_sound_expire
      | apply keeps_docker; apply mirror_sound_call_docker
      | apply keeps_answer
      | apply keeps_ret
      | apply keeps_bind; [|intros ?] ].
  - route_cases; done.
  - unfold delete_terminal.
    destruct (PyDict.get _ _); [|done]. destruct (agent_mismatch _ _); [done|].
    by apply mirror_sound_destroy.
  - unfold terminal_stream, M_bind, docker.
    repeat case_match; simplify_eq/=; done.
  - unfold cleanup_expired_terminals.
    generalize (expired_terminals current_time (terminals s)). intros tids.
    revert s Hs. induction tids as [|tid tids IH]; intros s Hs; simpl; [done|].
    by apply IH, mirror_sound_destroy.
Qed.

End MirrorSound.

(** X16.  At every moment of every run of the server, each terminal text
    in the mirror is stored under ["terminal:<id>"] for its own
    identifier, with the terminal timeout in seconds, says [running], and
    its identifier is a key of [terminals]: the mirror never holds a
    terminal the dictionary does not know, and never a destroyed one. *)
Theorem mirror_within_registry config ops :
  mirror_sound config (run config ops initial_state).
Proof.
  assert (∀ s, mirror_sound config s → mirror_sound config (run config ops s))
    as Hrun.
  { induction ops as [|o ops IH]; intros s Hs; simpl; [done|].
    by apply IH, mirror_sound_step. }
  apply Hrun. intros key ttl v. simpl. by rewrite lookup_empty.
Qed.

(** ** Identifiers are never forgotten *)

Lemma mark_all_is_Some tids d terminal_id :
  is_Some (PyDict.get terminal_id d) →
  is_Some (PyDict.get terminal_id (mark_all tids d)).
Proof.
  revert d. induction tids as [|tid tids IH]; intros d Hd; simpl; [done|].
  apply IH. rewrite get_mark_destroyed.
  destruct Hd as [t Ht]. rewrite Ht. by case_decide.
Qed.

(** X17.  No operation removes a key from [terminals]: an identifier that
    is stored stays stored along every run, whatever is destroyed or
    cleaned up, so it is never answered 404 again. *)
Theorem terminals_never_forgets config ops s terminal_id :
  is_Some (PyDict.get terminal_id (terminals s)) →
  is_Some (PyDict.get terminal_id (terminals (run config ops s))).
Proof.
  revert s. induction ops as [|o ops IH]; intros s Hs; simpl; [done|].
  apply IH.
  destruct (step_change config o s) as [[tids ->]|(info & -> & _)].
  - by apply mark_all_is_Some.
  - rewrite get_setitem. by case_decide.
Qed.

Lemma terminals_never_forgets_witness :
  is_Some
    (PyDict.get "t1"
       (terminals
          (run default_config
             [op_delete_terminal "t1" (token_of "a1") world_destroy;
              op_cleanup 99999999999999 (λ _, world_destroy)]
             state_t1))).
Proof.
  apply (terminals_never_forgets default_config _ state_t1 "t1").
  by eexists.
Defined.

(** ** Destroy, then create *)

(** X18.  Within the limit, once the engine has destroyed a running
    terminal of an agent, a create for that agent passes the limit check
    again: with a token of the agent and a world that answers, it returns
    a response. *)
Theorem destroy_then_create_accepted config terminal_id dw s t request
    token_data cw :
  within_quota config (terminals s) →
  PyDict.get terminal_id (terminals s) = Some t →
  ti_status t = running →
  engine_destroys dw →
  req_agent_id request = ti_agent_id t →
  owned_by token_data t →
  cw_makedirs cw = Done () →
  (∃ container_id, cw_run cw = Done container_id) →
  cw_setex cw = Done () →
  ∃ resp s',
    create_terminal config request token_data cw
      (destroy_terminal terminal_id dw s).2
    = (Return resp, s').
Proof.
  intros Hq Ht Hst Hdw Hag Hown Hmk [cid Hrun] Hsetex.
  unfold create_terminal, create_agent_terminal, agent_mismatch, owned_by in *.
  rewrite Hag. rewrite bool_decide_false by (intros Hne; by apply Hne).
  rewrite destroy_terminal_terminals.
  rewrite (decide_True (P := engine_destroys dw)) by done.
  pose proof (filter_setitem_replace
                (λ x, ti_agent_id x = ti_agent_id t ∧ ti_status x = running)
                (terminals s) terminal_id (with_status destroyed t) t Ht) as Hc.
  rewrite decide_True in Hc by done.
  rewrite decide_False in Hc by (simpl; by intros [_ ?]).
  specialize (Hq (ti_agent_id t)). unfold agent_running in *.
  unfold mark_destroyed. rewrite Ht.
  rewrite decide_False, Hmk.
  - unfold try_except, redis_setex.
    unfold M_bind, docker, answer, modify, M_ret.
    rewrite Hrun, Hsetex. simpl. by eexists _, _.
  - intros Hfull.
    assert (∀ a b m : nat, a + 1 = b + 0 → b ≤ m → m ≤ a → False)%nat as Harith
      by (intros; lia).
    exact (Harith _ _ _ Hc Hq Hfull).
Qed.

Lemma destroy_then_create_accepted_witness :
  ∃ resp s',
    create_terminal default_config (request_of "a1" 4) (token_of "a1")
      (world_create "t6" "c6" 0)
      (destroy_terminal "t1" world_destroy state_full).2
    = (Return resp, s').
Proof.
  apply (destroy_then_create_accepted default_config "t1" world_destroy
           state_full
           {| ti_terminal_id := "t1"; ti_agent_id := "a1";
              ti_container_id := "c-t1"; ti_status := running;
              ti_created_at := 0; ti_log_dir := "/tmp/agent-logs/a1/t1";
              ti_command := "bash"; ti_expires_at := 14400000000 |}).
  - intros a. unfold agent_running.
    etrans; [apply length_filter|]. vm_compute. lia.
  - reflexivity.
  - reflexivity.
  - by split_and!.
  - reflexivity.
  - reflexivity.
  - reflexivity.
  - by eexists.
  - reflexivity.
Defined.

(** ** The log directory *)

Lemma app_empty_inv (s1 s2 : string) : s1 +:+ s2 = "" → s1 = "" ∧ s2 = "".
Proof. by destruct s1, s2. Qed.

Lemma endswith_sep_app s1 s2 :
  s2 ≠ "" → endswith_sep (s1 +:+ s2) = endswith_sep s2.
Proof.
  intros Hs2. induction s1 as [|c s1 IH]; [done|].
  change (String c s1 +:+ s2) with (String c (s1 +:+ s2)).
  destruct (s1 +:+ s2) as [|c' r] eqn:Happ.
  - by apply app_empty_inv in Happ as [_ ?].
  - exact IH.
Qed.

Lemma app_assoc_string (s1 s2 s3 : string) :
  (s1 +:+ s2) +:+ s3 = s1 +:+ s2 +:+ s3.
Proof.
  induction s1 as [|c s1 IH]; [done|].
  change (String c ((s1 +:+ s2) +:+ s3) = String c (s1 +:+ s2 +:+ s3)).
  by f_equal.
Qed.

(** X19.  The log directory of a created terminal, when the identifier
    drawn does not start with [/].  For an [agent_id] that is not empty and
    has no [/] at either end, and a base directory of the same kind, it is
    [<base>/<agent_id>/<terminal_id>].  For an [agent_id] that starts with
    [/], the base directory is dropped: the directory is [agent_id] itself
    followed by the identifier. *)
Theorem create_terminal_log_path config request token_data w s resp s' :
  create_terminal config request token_data w s = (Return resp, s') →
  startswith_sep (cw_uuid4 w) = false →
  (startswith_sep (req_agent_id request) = true →
   resp_log_path resp
   = req_agent_id request
     +:+ (if endswith_sep (req_agent_id request) then "" else "/")
     +:+ cw_uuid4 w)
  ∧ (startswith_sep (req_agent_id request) = false →
     req_agent_id request ≠ "" →
     endswith_sep (req_agent_id request) = false →
     LOG_BASE_DIR config ≠ "" →
     endswith_sep (LOG_BASE_DIR config) = false →
     resp_log_path resp
     = LOG_BASE_DIR config +:+ "/" +:+ req_agent_id request
       +:+ "/" +:+ cw_uuid4 w).
Proof.
  intros Hr Htid.
  assert (resp_log_path resp
          = os_path_join (LOG_BASE_DIR config)
              [req_agent_id request; cw_uuid4 w]) as ->.
  { revert Hr. route_cases; intros; by simplify_eq/=. }
  unfold os_path_join. simpl. unfold path_join_step at 1. rewrite Htid.
  split.
  - intros Hag. unfold path_join_step. rewrite Hag.
    rewrite bool_decide_false by (intros Hempty; by rewrite Hempty in Hag).
    cbn [orb]. by destruct (endswith_sep (req_agent_id request)).
  - intros Hag Hne Hend Hbase Hbend. unfold path_join_step.
    rewrite Hag, Hbend, (bool_decide_false (LOG_BASE_DIR config = "")) by done.
    cbn [orb].
    rewrite bool_decide_false; [|intros Happ].
    + rewrite Htid, endswith_sep_app, endswith_sep_app, Hend by
        (try done; intros Happ; by apply app_empty_inv in Happ as [_ ?]).
      cbn [orb]. by rewrite !app_assoc_string.
    + by apply app_empty_inv in Happ as [? _].
Qed.

Lemma create_terminal_log_path_witness :
  ∃ resp s',
    create_terminal default_config
      {| req_agent_id := "/etc"; req_command := None;
         req_environment := None; req_timeout_hours := None |}
      (token_of "/etc") (world_create "t1" "c1" 0) initial_state
    = (Return resp, s')
    ∧ resp_log_path resp = "/etc/t1".
Proof.
  eexists _, _. split; [vm_compute; reflexivity|].
  apply (proj1 (create_terminal_log_path default_config
                  {| req_agent_id := "/etc"; req_command := None;
                     req_environment := None; req_timeout_hours := None |}
                  (token_of "/etc") (world_create "t1" "c1" 0) initial_state
                  _ _ eq_refl eq_refl)).
  reflexivity.
Defined.

(** ** Output that is not text *)

(** X20.  When the command of a running terminal ran and its output is not
    UTF-8, the owner is answered 500, although the engine executed the
    command and its entry is already at the head of the terminal's command
    list in the mirror. *)
Theorem execute_command_undecodable_output config terminal_id request
    token_data w s t res b :
  PyDict.get terminal_id (terminals s) = Some t →
  owned_by token_data t →
  ti_status t = running →
  xw_get w = Done () →
  xw_exec_run w = Done res →
  er_output res = Some b →
  utf8_valid (byte_val <$> b) = false →
  xw_lpush w = Done () →
  xw_expire w = Done () →
  (∀ ttl v, redis s !! ("terminal:" +:+ terminal_id +:+ ":commands")
            ≠ Some (RString ttl v)) →
  ∃ detail s',
    execute_command config terminal_id request token_data w s
    = (Raise (HTTPException 500 detail), s')
    ∧ docker_calls s'
      = (docker_calls s
         ++ [containers_get (ti_container_id t);
             container_exec_run (ti_container_id t)
               (req_exec_command request) true true false
               (timeout_or_30 (req_timeout request))])%list
    ∧ ∃ ttl old,
        redis s' !! ("terminal:" +:+ terminal_id +:+ ":commands")
        = Some (RList ttl
                  ({| le_timestamp := xw_utcnow w;
                      le_terminal_id := terminal_id;
                      le_agent_id := ti_agent_id t;
                      le_command := req_exec_command request;
                      le_exit_code := er_exit_code res;
                      le_execution_time := xw_now_end w - xw_now_start w |}
                   :: old)).
Proof.
  intros Ht Hown Hst Hget Hrun Hout Hbad Hlpush Hexpire Hkey.
  unfold execute_command, execute_command_in_terminal, agent_mismatch.
  rewrite Ht, bool_decide_false by (intros Hne; by apply Hne).
  rewrite decide_False by (intros Hne; by apply Hne).
  unfold try_except, redis_lpush, redis_expire, decode_output, decode_utf8.
  unfold M_bind, docker, answer, modify, M_ret.
  rewrite Hget, Hrun, Hlpush, Hexpire, Hout, Hbad. simpl.
  assert (b ≠ []) as Hb by (by intros ->).
  destruct (redis s !! ("terminal:" +:+ terminal_id +:+ ":commands"))
    as [[ttl v|ttl l]|] eqn:Hk; simpl.
  - by destruct (Hkey ttl v).
  - rewrite lookup_insert_eq. simpl. destruct b; [done|].
    eexists _, _. split_and!; [done|simpl; by rewrite <-app_assoc|].
    simpl. rewrite lookup_insert_eq. by eexists _, _.
  - rewrite lookup_insert_eq. simpl. destruct b; [done|].
    eexists _, _. split_and!; [done|simpl; by rewrite <-app_assoc|].
    simpl. rewrite lookup_insert_eq. by eexists _, _.
Qed.

Lemma execute_command_undecodable_output_witness :
  ∃ detail s',
    execute_command default_config "t1" (exec_request "cat /bin/ls")
      (token_of "a1") (world_exec [Byte.xff] 0) state_t1
    = (Raise (HTTPException 500 detail), s')
    ∧ docker_calls s'
      = (docker_calls state_t1
         ++ [containers_get "c1";
             container_exec_run "c1" "cat /bin/ls" true true false 30])%list.
Proof.
  destruct (execute_command_undecodable_output default_config "t1"
              (exec_request "cat /bin/ls") (token_of "a1")
              (world_exec [Byte.xff] 0) state_t1 terminal_t1
              {| er_exit_code := 0; er_output := Some [Byte.xff] |} [Byte.xff])
    as (detail & s' & Hr & Hcalls & _); try reflexivity.
  - intros ttl v. vm_compute. discriminate.
  - exists detail, s'. split; [exact Hr|exact Hcalls].
Defined.
